(** * A no-cache static file server: [NoCacheHandler] and [main]

    Shallow embedding of [server.py].  The program is a subclass of
    [http.server.SimpleHTTPRequestHandler] that overrides one method,
    [end_headers], and a [main] that reads two environment variables and
    runs a [ThreadingHTTPServer].  The inherited methods are embedded from
    CPython 3.11 ([Lib/http/server.py], [Lib/posixpath.py], [Lib/shutil.py],
    [Lib/socketserver.py]); every definition names the function it follows.

    Conventions.
    - A Python [str] or [bytes] value is a [string]: a sequence of code
      points 0..255 (the request line is decoded as ISO-8859-1).
    - [os.path] is [posixpath].
    - Library functions whose result no property below depends on are
      fields of the class [Library]. *)

From Stdlib Require Import ZArith Strings.String Strings.Ascii Numbers.DecimalString.
From stdpp Require Import base option list gmap strings.
From stdpp Require Import sorting.

Local Open Scope string_scope.
Local Open Scope Z_scope.

(** ** Python [str] operations *)

Module Str.

(** Truth value of a [str]: non-empty. *)
Definition truthy (s : string) : bool :=
  match s with EmptyString => false | String _ _ => true end.

(** [c in s] for a one-character [c]. *)
Fixpoint contains (c : ascii) (s : string) : bool :=
  match s with
  | EmptyString => false
  | String a s' => Ascii.eqb a c || contains c s'
  end.

(** [s.split(c)] for a one-character separator: never an empty list. *)
Fixpoint split (c : ascii) (s : string) : list string :=
  match s with
  | EmptyString => [EmptyString]
  | String a s' =>
      if Ascii.eqb a c then EmptyString :: split c s'
      else match split c s' with
           | w :: ws => String a w :: ws
           | [] => [String a EmptyString]
           end
  end.

(** [s.split(c, 1)[0]]: the part before the first [c]. *)
Fixpoint before (c : ascii) (s : string) : string :=
  match s with
  | EmptyString => EmptyString
  | String a s' => if Ascii.eqb a c then EmptyString else String a (before c s')
  end.

(** [s.startswith(p)]. *)
Definition startswith (p s : string) : bool := String.prefix p s.

(** [s.endswith(p)]: [p] is [s] or a suffix of its tail. *)
Fixpoint endswith (p s : string) : bool :=
  String.eqb s p ||
  match s with
  | EmptyString => false
  | String _ s' => endswith p s'
  end.

(** [str.isspace] on one code point below 256. *)
Definition isspace (a : ascii) : bool :=
  let n := N_of_ascii a in
  ((9 <=? n) && (n <=? 13) || (28 <=? n) && (n <=? 32) ||
   (n =? 133) || (n =? 160))%N.

(** [s.rstrip()]. *)
Fixpoint rstrip (s : string) : string :=
  match s with
  | EmptyString => EmptyString
  | String a s' =>
      let r := rstrip s' in
      if negb (truthy r) && isspace a then EmptyString else String a r
  end.

(** [s.rstrip(c)] for a one-character [c]. *)
Fixpoint rstrip_char (c : ascii) (s : string) : string :=
  match s with
  | EmptyString => EmptyString
  | String a s' =>
      let r := rstrip_char c s' in
      if negb (truthy r) && Ascii.eqb a c then EmptyString else String a r
  end.

(** [s[:s.rfind(c) + 1]]: the prefix through the last [c], empty when
    [c] does not occur. *)
Fixpoint through_last (c : ascii) (s : string) : string :=
  match s with
  | EmptyString => EmptyString
  | String a s' =>
      if contains c s then String a (through_last c s') else EmptyString
  end.

(** [s == c * len(s)]. *)
Fixpoint all_eq (c : ascii) (s : string) : bool :=
  match s with
  | EmptyString => true
  | String a s' => Ascii.eqb a c && all_eq c s'
  end.

(** [str.lower] on one code point below 256: [A-Z] and the Latin-1
    capitals 192..222 except the multiplication sign 215. *)
Definition lower_char (a : ascii) : ascii :=
  let n := N_of_ascii a in
  if ((65 <=? n) && (n <=? 90) ||
      (192 <=? n) && (n <=? 222) && negb (n =? 215))%N
  then ascii_of_N (n + 32) else a.

Fixpoint lower (s : string) : string :=
  match s with
  | EmptyString => EmptyString
  | String a s' => String (lower_char a) (lower s')
  end.

(** [b''.join(l)]. *)
Definition join (l : list string) : string := String.concat EmptyString l.

(** [str(n)] and [%d] for an integer. *)
Definition of_Z (n : Z) : string := NilZero.string_of_int (Z.to_int n).

End Str.

(** ** [posixpath] *)

Module posixpath.

Definition sep : ascii := "/"%char.
Definition curdir : string := ".".
Definition pardir : string := "..".

(** [posixpath.join(a, b)]. *)
Definition join (a b : string) : string :=
  if Str.startswith "/" b then b
  else if negb (Str.truthy a) || Str.endswith "/" a then a +:+ b
  else a +:+ "/" +:+ b.

(** [posixpath.dirname(p)]. *)
Definition dirname (p : string) : string :=
  let head := Str.through_last sep p in
  if Str.truthy head && negb (Str.all_eq sep head)
  then Str.rstrip_char sep head else head.

(** Truth value of a list: non-empty. *)
Definition truthy_list (l : list string) : bool :=
  match l with [] => false | _ :: _ => true end.

(** The loop body of [normpath]: [new_comps] grows and shrinks at its
    end ([new_comps[-1]] is [last new_comps]). *)
Definition normpath_step (initial_slashes : nat) (new_comps : list string)
    (comp : string) : list string :=
  if String.eqb comp EmptyString || String.eqb comp curdir then new_comps
  else if negb (String.eqb comp pardir)
          || (Nat.eqb initial_slashes 0 && negb (truthy_list new_comps))
          || (truthy_list new_comps
              && match last new_comps with
                 | Some c => String.eqb c pardir
                 | None => false
                 end)
       then new_comps ++ [comp]
       else removelast new_comps.

(** The variable [initial_slashes] of [normpath]: POSIX allows one or
    two initial slashes, and treats three or more as one. *)
Definition initial_slashes (path : string) : nat :=
  if Str.startswith "/" path then
    if Str.startswith "//" path && negb (Str.startswith "///" path)
    then 2%nat else 1%nat
  else 0%nat.

(** [posixpath.normpath(path)] (the Python definition, which the C
    accelerator [_path_normpath] follows). *)
Definition normpath (path : string) : string :=
  if String.eqb path EmptyString then curdir
  else
    let comps := Str.split sep path in
    let new_comps := fold_left (normpath_step (initial_slashes path)) comps [] in
    let joined := String.concat "/" new_comps in
    let path' :=
      match initial_slashes path with
      | O => joined
      | 1%nat => "/" +:+ joined
      | _ => "//" +:+ joined
      end in
    if Str.truthy path' then path' else curdir.

(** [posixpath.isabs(s)]. *)
Definition isabs (s : string) : bool := Str.startswith "/" s.

(** [posixpath.abspath(path)]; [cwd] is [os.getcwd()]. *)
Definition abspath (cwd path : string) : string :=
  normpath (if isabs path then path else join cwd path).

End posixpath.

(** ** Library functions left abstract *)

Class Library := {
  (** ["%r" % s] for a [str]. *)
  repr : string -> string;
  (** [urllib.parse.unquote(s, errors='surrogatepass')]; [None] is
      [UnicodeDecodeError]. *)
  unquote_surrogatepass : string -> option string;
  (** [urllib.parse.unquote(s)]. *)
  unquote : string -> string;
  (** [urllib.parse.quote(s, errors='surrogatepass')]. *)
  quote : string -> string;
  (** [urllib.parse.urlsplit(s).path]. *)
  urlsplit_path : string -> string;
  (** [urlunsplit] of [urlsplit(s)] with ['/'] appended to its path. *)
  urlunsplit_slash : string -> string;
  (** [SimpleHTTPRequestHandler.guess_type(path)]. *)
  guess_type : string -> string;
  (** [email.utils.formatdate(t, usegmt=True)]. *)
  formatdate : Z -> string;
  (** [BaseHTTPRequestHandler.version_string()]. *)
  version_string : string;
  (** [email.utils.parsedate_to_datetime(s)] as a UTC timestamp: [Some t]
      when the value parses and carries no time zone or UTC, [None] when
      it is ill-formed or in another zone (both are ignored). *)
  parsedate_utc : string -> option Z;
  (** [s.encode('UTF-8', 'replace')]. *)
  utf8 : string -> string;
  (** [sys.getfilesystemencoding()]. *)
  fsencoding : string;
  (** [s.encode(sys.getfilesystemencoding(), 'surrogateescape')]. *)
  fsencode : string -> string;
}.

(** ** The file system and the clock *)

(** An open file object: what [read] yields until end of file, and the
    [os.fstat] fields the handler uses ([st_mtime] in whole seconds). *)
Record file := { content : string; st_size : Z; st_mtime : Z }.

Record filesystem := {
  isdir : string -> bool;                   (* os.path.isdir *)
  isfile : string -> bool;                  (* os.path.isfile *)
  islink : string -> bool;                  (* os.path.islink *)
  open_rb : string -> option file;          (* open(path, 'rb'); None: OSError *)
  listdir : string -> option (list string); (* os.listdir; None: OSError *)
}.

Record world := { fs : filesystem; time : Z (* time.time() *) }.

(** ** Text constants *)

Definition CR : string := String "013"%char EmptyString.
Definition LF : string := String "010"%char EmptyString.
Definition CRLF : string := CR +:+ LF.
Definition dq : string := String "034"%char EmptyString.

(** [html.escape(s, quote=False)]. *)
Fixpoint html_escape (s : string) : string :=
  match s with
  | EmptyString => EmptyString
  | String a s' =>
      (if Ascii.eqb a "&" then "&amp;"
       else if Ascii.eqb a "<" then "&lt;"
       else if Ascii.eqb a ">" then "&gt;"
       else String a EmptyString) +:+ html_escape s'
  end.

(** [http.HTTPStatus] values the handler sends. *)
Module HTTPStatus.
Definition OK : Z := 200.
Definition NO_CONTENT : Z := 204.
Definition RESET_CONTENT : Z := 205.
Definition MOVED_PERMANENTLY : Z := 301.
Definition NOT_MODIFIED : Z := 304.
Definition NOT_FOUND : Z := 404.
Definition NOT_IMPLEMENTED : Z := 501.
End HTTPStatus.

(** [BaseHTTPRequestHandler.responses], on the codes above: the short
    and the long message. *)
Definition responses (code : Z) : option (string * string) :=
  if code =? 200 then Some ("OK", "Request fulfilled, document follows")
  else if code =? 204 then Some ("No Content", "Request fulfilled, nothing follows")
  else if code =? 205 then Some ("Reset Content", "Clear input form for further input")
  else if code =? 301 then
    Some ("Moved Permanently", "Object moved permanently -- see URI list")
  else if code =? 304 then
    Some ("Not Modified", "Document has not changed since given time")
  else if code =? 403 then
    Some ("Forbidden", "Request forbidden -- authorization will not help")
  else if code =? 404 then Some ("Not Found", "Nothing matches the given URI")
  else if code =? 405 then
    Some ("Method Not Allowed", "Specified method is invalid for this resource")
  else if code =? 500 then
    Some ("Internal Server Error", "Server got itself in trouble")
  else if code =? 501 then
    Some ("Not Implemented", "Server does not support this operation")
  else None.

(** [DEFAULT_ERROR_MESSAGE % {'code': code, 'message': m, 'explain': e}]. *)
Definition error_message_format (code : Z) (message explain : string) : string :=
  "<!DOCTYPE HTML>" +:+ LF +:+
  "<html lang=" +:+ dq +:+ "en" +:+ dq +:+ ">" +:+ LF +:+
  "    <head>" +:+ LF +:+
  "        <meta charset=" +:+ dq +:+ "utf-8" +:+ dq +:+ ">" +:+ LF +:+
  "        <title>Error response</title>" +:+ LF +:+
  "    </head>" +:+ LF +:+
  "    <body>" +:+ LF +:+
  "        <h1>Error response</h1>" +:+ LF +:+
  "        <p>Error code: " +:+ Str.of_Z code +:+ "</p>" +:+ LF +:+
  "        <p>Message: " +:+ message +:+ ".</p>" +:+ LF +:+
  "        <p>Error code explanation: " +:+ Str.of_Z code +:+ " - " +:+
  explain +:+ ".</p>" +:+ LF +:+
  "    </body>" +:+ LF +:+
  "</html>" +:+ LF.

Definition error_content_type : string := "text/html;charset=utf-8".
Definition protocol_version : string := "HTTP/1.0".

(** ["%s %d %s\r\n" % (self.protocol_version, code, message)]. *)
Definition status_line (code : Z) (message : string) : string :=
  protocol_version +:+ " " +:+ Str.of_Z code +:+ " " +:+ message +:+ CRLF.

(** ["%s: %s\r\n" % (keyword, value)]. *)
Definition header_line (keyword value : string) : string :=
  keyword +:+ ": " +:+ value +:+ CRLF.

(** ** The request handler object *)

Inductive log_record :=
  | log_request (code : Z)
  | log_error (code : Z) (message : string).

(** The attributes of a handler instance.  [command], [path],
    [request_version] and [headers] are as [parse_request] leaves them;
    [headers_buffer] is [_headers_buffer] (empty when the attribute is
    absent); [wfile] is the sequence of [wfile.write] calls; [log] is what
    [log_message] received. *)
Record handler := {
  directory : string;
  command : string;
  path : string;
  request_version : string;
  headers : list (string * string);
  headers_buffer : list string;
  wfile : list string;
  close_connection : bool;
  log : list log_record;
}.

Definition set_headers_buffer (b : list string) (h : handler) : handler :=
  {| directory := directory h; command := command h; path := path h;
     request_version := request_version h; headers := headers h;
     headers_buffer := b; wfile := wfile h;
     close_connection := close_connection h; log := log h |}.

Definition write (data : string) (h : handler) : handler :=
  {| directory := directory h; command := command h; path := path h;
     request_version := request_version h; headers := headers h;
     headers_buffer := headers_buffer h; wfile := wfile h ++ [data];
     close_connection := close_connection h; log := log h |}.

Definition set_close_connection (c : bool) (h : handler) : handler :=
  {| directory := directory h; command := command h; path := path h;
     request_version := request_version h; headers := headers h;
     headers_buffer := headers_buffer h; wfile := wfile h;
     close_connection := c; log := log h |}.

Definition log_message (r : log_record) (h : handler) : handler :=
  {| directory := directory h; command := command h; path := path h;
     request_version := request_version h; headers := headers h;
     headers_buffer := headers_buffer h; wfile := wfile h;
     close_connection := close_connection h; log := log h ++ [r] |}.

(** [name in self.headers]. *)
Definition headers_contains (name : string) (hs : list (string * string)) : bool :=
  existsb (fun kv => String.eqb (Str.lower (fst kv)) (Str.lower name)) hs.

(** [self.headers[name]]. *)
Definition headers_get (name : string) (hs : list (string * string)) : option string :=
  snd <$> List.find (fun kv => String.eqb (Str.lower (fst kv)) (Str.lower name)) hs.

(** ** [shutil.copyfileobj] *)

(** [COPY_BUFSIZE] on a POSIX system. *)
Definition COPY_BUFSIZE : nat := Z.to_nat (64 * 1024).

(** [fsrc.read(n)]: at most [n] bytes, and what is left of the stream. *)
Fixpoint read (n : nat) (src : string) : string * string :=
  match n, src with
  | S n', String a src' => let (buf, rest) := read n' src' in (String a buf, rest)
  | _, _ => (EmptyString, src)
  end.

(** The [while True] loop of [copyfileobj]: the list of [fdst.write]
    calls.  [fuel] bounds the number of iterations. *)
Fixpoint copyfileobj_loop (fuel : nat) (length : nat) (src : string) : list string :=
  match fuel with
  | O => []
  | S fuel' =>
      let (buf, rest) := read length src in
      if negb (Str.truthy buf) then []
      else buf :: copyfileobj_loop fuel' length rest
  end.

(** [shutil.copyfileobj(fsrc, fdst)] with the default [length]. *)
Definition copyfileobj (src : string) : list string :=
  copyfileobj_loop (S (String.length src)) COPY_BUFSIZE src.

(** ** Methods of [BaseHTTPRequestHandler] and [SimpleHTTPRequestHandler]

    [self.end_headers] is dispatched on the class of the instance, so the
    inherited methods take it as a variable. *)

Section Methods.
Context {L : Library}.
Variable end_headers : handler -> handler.

Definition is_http09 (h : handler) : bool := String.eqb (request_version h) "HTTP/0.9".

(** [send_response_only(code, message)]. *)
Definition send_response_only (code : Z) (message : option string) (h : handler) : handler :=
  if negb (is_http09 h) then
    let message :=
      match message with
      | Some m => m
      | None => match responses code with
                | Some (short, _) => short
                | None => EmptyString
                end
      end in
    set_headers_buffer (headers_buffer h ++ [status_line code message]) h
  else h.

(** [send_header(keyword, value)]. *)
Definition send_header (keyword value : string) (h : handler) : handler :=
  let h :=
    if negb (is_http09 h) then
      set_headers_buffer (headers_buffer h ++ [header_line keyword value]) h
    else h in
  if String.eqb (Str.lower keyword) "connection" then
    if String.eqb (Str.lower value) "close" then set_close_connection true h
    else if String.eqb (Str.lower value) "keep-alive" then set_close_connection false h
    else h
  else h.

(** [flush_headers()]: an absent buffer writes nothing. *)
Definition flush_headers (h : handler) : handler :=
  match headers_buffer h with
  | [] => h
  | buffer => set_headers_buffer [] (write (Str.join buffer) h)
  end.

(** [date_time_string()] and [date_time_string(timestamp)]. *)
Definition date_time_string (timestamp : Z) : string := formatdate timestamp.

(** [send_response(code, message)]. *)
Definition send_response (w : world) (code : Z) (message : option string)
    (h : handler) : handler :=
  let h := log_message (log_request code) h in
  let h := send_response_only code message h in
  let h := send_header "Server" version_string h in
  send_header "Date" (date_time_string (time w)) h.

(** [send_error(code, message, explain)]. *)
Definition send_error (w : world) (code : Z) (message explain : option string)
    (h : handler) : handler :=
  let (shortmsg, longmsg) :=
    match responses code with
    | Some r => r
    | None => ("???", "???")
    end in
  let message := default shortmsg message in
  let explain := default longmsg explain in
  let h := log_message (log_error code message) h in
  let h := send_response w code (Some message) h in
  let h := send_header "Connection" "close" h in
  let body :=
    if (200 <=? code) &&
       negb ((code =? HTTPStatus.NO_CONTENT) || (code =? HTTPStatus.RESET_CONTENT)
             || (code =? HTTPStatus.NOT_MODIFIED))
    then Some (utf8 (error_message_format code (html_escape message)
                       (html_escape explain)))
    else None in
  let h :=
    match body with
    | Some b =>
        send_header "Content-Length" (Str.of_Z (Z.of_nat (String.length b)))
          (send_header "Content-Type" error_content_type h)
    | None => h
    end in
  let h := end_headers h in
  match body with
  | Some b =>
      if negb (String.eqb (command h) "HEAD") && Str.truthy b then write b h else h
  | None => h
  end.

(** [translate_path(path)]. *)
Definition translate_path (directory path : string) : string :=
  let path := Str.before "?" path in
  let path := Str.before "#" path in
  let trailing_slash := Str.endswith "/" (Str.rstrip path) in
  let path :=
    match unquote_surrogatepass path with
    | Some p => p
    | None => unquote path
    end in
  let path := posixpath.normpath path in
  let words := List.filter Str.truthy (Str.split "/" path) in
  let path :=
    fold_left
      (fun path word =>
         if Str.truthy (posixpath.dirname word)
            || String.eqb word posixpath.curdir || String.eqb word posixpath.pardir
         then path
         else posixpath.join path word)
      words directory in
  if trailing_slash then path +:+ "/" else path.

(** [list.sort(key=lambda a: a.lower())]: a stable sort. *)
Fixpoint insert_by_lower (a : string) (l : list string) : list string :=
  match l with
  | [] => [a]
  | b :: l' =>
      if String.leb (Str.lower a) (Str.lower b) then a :: b :: l'
      else b :: insert_by_lower a l'
  end.

Definition sort_by_lower (l : list string) : list string :=
  foldr insert_by_lower [] l.

(** One [<li>] line of the directory listing. *)
Definition listing_entry (f : filesystem) (path name : string) : string :=
  let fullname := posixpath.join path name in
  let linkname := if isdir f fullname then name +:+ "/" else name in
  let displayname :=
    if islink f fullname then name +:+ "@"
    else if isdir f fullname then name +:+ "/" else name in
  "<li><a href=" +:+ dq +:+ quote linkname +:+ dq +:+ ">" +:+
  html_escape displayname +:+ "</a></li>".

(** The list [r] that [list_directory] joins with newlines. *)
Definition listing_lines (f : filesystem) (path displaypath : string)
    (names : list string) : list string :=
  let title := "Directory listing for " +:+ displaypath in
  [ "<!DOCTYPE HTML>";
    "<html lang=" +:+ dq +:+ "en" +:+ dq +:+ ">";
    "<head>";
    "<meta charset=" +:+ dq +:+ fsencoding +:+ dq +:+ ">";
    "<title>" +:+ title +:+ "</title>" +:+ LF +:+ "</head>";
    "<body>" +:+ LF +:+ "<h1>" +:+ title +:+ "</h1>";
    "<hr>" +:+ LF +:+ "<ul>" ]
  ++ map (listing_entry f path) names
  ++ [ "</ul>" +:+ LF +:+ "<hr>" +:+ LF +:+ "</body>" +:+ LF +:+ "</html>" +:+ LF ].

(** [list_directory(path)], with [dir] for its argument: the handler after the headers are sent, and
    the bytes of the returned file object ([None]: no file object). *)
Definition list_directory (w : world) (dir : string) (h : handler)
    : handler * option string :=
  match listdir (fs w) dir with
  | None =>
      (send_error w HTTPStatus.NOT_FOUND (Some "No permission to list directory")
         None h, None)
  | Some list =>
      let list := sort_by_lower list in
      let displaypath :=
        match unquote_surrogatepass (path h) with
        | Some d => d
        | None => unquote dir
        end in
      let displaypath := html_escape displaypath in
      let encoded :=
        fsencode (String.concat LF (listing_lines (fs w) dir displaypath list)) in
      let h := send_response w HTTPStatus.OK None h in
      let h := send_header "Content-type" ("text/html; charset=" +:+ fsencoding) h in
      let h := send_header "Content-Length"
                 (Str.of_Z (Z.of_nat (String.length encoded))) h in
      (end_headers h, Some encoded)
  end.

(** The test under "Use browser cache if possible" in [send_head]. *)
Definition not_modified (f : file) (h : handler) : bool :=
  headers_contains "If-Modified-Since" (headers h)
  && negb (headers_contains "If-None-Match" (headers h))
  && match headers_get "If-Modified-Since" (headers h) ≫= parsedate_utc with
     | Some ims => st_mtime f <=? ims
     | None => false
     end.

(** [send_head], from [ctype = self.guess_type(path)] on: [path] is a
    file name. *)
Definition send_head_file (w : world) (path : string) (h : handler)
    : handler * option string :=
  let ctype := guess_type path in
  if Str.endswith "/" path then
    (send_error w HTTPStatus.NOT_FOUND (Some "File not found") None h, None)
  else
    match open_rb (fs w) path with
    | None => (send_error w HTTPStatus.NOT_FOUND (Some "File not found") None h, None)
    | Some f =>
        if not_modified f h then
          (end_headers (send_response w HTTPStatus.NOT_MODIFIED None h), None)
        else
          let h := send_response w HTTPStatus.OK None h in
          let h := send_header "Content-type" ctype h in
          let h := send_header "Content-Length" (Str.of_Z (st_size f)) h in
          let h := send_header "Last-Modified" (date_time_string (st_mtime f)) h in
          (end_headers h, Some (content f))
    end.

(** The [for index in "index.html", "index.htm"] loop of [send_head]. *)
Definition find_index (f : filesystem) (path : string) : option string :=
  List.find (isfile f)
    [posixpath.join path "index.html"; posixpath.join path "index.htm"].

(** [send_head()]. *)
Definition send_head (w : world) (h : handler) : handler * option string :=
  let file_path := translate_path (directory h) (path h) in
  if isdir (fs w) file_path then
    if negb (Str.endswith "/" (urlsplit_path (path h))) then
      let h := send_response w HTTPStatus.MOVED_PERMANENTLY None h in
      let h := send_header "Location" (urlunsplit_slash (path h)) h in
      let h := send_header "Content-Length" "0" h in
      (end_headers h, None)
    else
      match find_index (fs w) file_path with
      | Some index => send_head_file w index h
      | None => list_directory w file_path h
      end
  else send_head_file w file_path h.

(** [copyfile(source, self.wfile)]. *)
Definition copyfile (source : string) (h : handler) : handler :=
  fold_left (fun h buf => write buf h) (copyfileobj source) h.

(** [do_GET()]. *)
Definition do_GET (w : world) (h : handler) : handler :=
  match send_head w h with
  | (h, Some f) => copyfile f h
  | (h, None) => h
  end.

(** [do_HEAD()]. *)
Definition do_HEAD (w : world) (h : handler) : handler := fst (send_head w h).

(** [handle_one_request()] from [mname = 'do_' + self.command] on, that
    is once [parse_request] has succeeded: the class has [do_GET] and
    [do_HEAD] and no other [do_] attribute. *)
Definition handle_one_request (w : world) (h : handler) : handler :=
  if String.eqb (command h) "GET" then do_GET w h
  else if String.eqb (command h) "HEAD" then do_HEAD w h
  else send_error w HTTPStatus.NOT_IMPLEMENTED
         (Some ("Unsupported method (" +:+ repr (command h) +:+ ")")) None h.

End Methods.

(** ** The classes *)

Module BaseHTTPRequestHandler.

(** [BaseHTTPRequestHandler.end_headers()]. *)
Definition end_headers (h : handler) : handler :=
  if negb (is_http09 h) then
    flush_headers (set_headers_buffer (headers_buffer h ++ [CRLF]) h)
  else h.

End BaseHTTPRequestHandler.

(** [SimpleHTTPRequestHandler] does not override [end_headers]. *)
Module SimpleHTTPRequestHandler.

Definition end_headers : handler -> handler := BaseHTTPRequestHandler.end_headers.

Definition handle_one_request {L : Library} : world -> handler -> handler :=
  handle_one_request end_headers.

End SimpleHTTPRequestHandler.

(** [class NoCacheHandler(SimpleHTTPRequestHandler)]. *)
Module NoCacheHandler.

(** The three header lines, as [send_header] buffers them. *)
Definition no_cache_lines : list string :=
  [ header_line "Cache-Control" "no-store, no-cache, must-revalidate, max-age=0";
    header_line "Pragma" "no-cache";
    header_line "Expires" "0" ].

(** [NoCacheHandler.end_headers()]. *)
Definition end_headers (h : handler) : handler :=
  let h := send_header "Cache-Control"
             "no-store, no-cache, must-revalidate, max-age=0" h in
  let h := send_header "Pragma" "no-cache" h in
  let h := send_header "Expires" "0" h in
  SimpleHTTPRequestHandler.end_headers h.

Definition send_head {L : Library} : world -> handler -> handler * option string :=
  send_head end_headers.

Definition do_GET {L : Library} : world -> handler -> handler := do_GET end_headers.

Definition handle_one_request {L : Library} : world -> handler -> handler :=
  handle_one_request end_headers.

(** A fresh instance made by [partial(NoCacheHandler, directory=root)],
    with the request attributes [parse_request] sets. *)
Definition init (root command path request_version : string)
    (headers : list (string * string)) : handler :=
  {| directory := root; command := command; path := path;
     request_version := request_version; headers := headers;
     headers_buffer := []; wfile := []; close_connection := true; log := [] |}.

End NoCacheHandler.

(** The codes [send_response] was called with. *)
Definition status_codes (h : handler) : list Z :=
  omap (fun r => match r with log_request c => Some c | log_error _ _ => None end)
       (log h).

(** ** The serve loop *)

(** What [parse_request] extracts from one request. *)
Record request := {
  req_command : string;
  req_path : string;
  req_version : string;
  req_headers : list (string * string);
}.

Module ThreadingHTTPServer.

(** [finish_request]: [self.RequestHandlerClass(request, client_address,
    self)], where the class is [partial(NoCacheHandler, directory=root)].
    The constructor runs [handle], and under protocol HTTP/1.0 the
    connection is closed after one request.  [c] is the time of the
    request and the request. *)
Definition finish_request {L : Library} (root : string) (f : filesystem)
    (c : Z * request) : handler :=
  NoCacheHandler.handle_one_request {| fs := f; time := fst c |}
    (NoCacheHandler.init root (req_command (snd c)) (req_path (snd c))
       (req_version (snd c)) (req_headers (snd c))).


End ThreadingHTTPServer.

(** A GET request. *)
Definition GET (path version : string) (headers : list (string * string)) : request :=
  {| req_command := "GET"; req_path := path; req_version := version;
     req_headers := headers |}.

(** ** [main] *)

(** The exceptions that [main] meets. *)
Inductive exn :=
  | ValueError
  | OSError
  | OverflowError
  | KeyboardInterrupt
  | OtherException (name : string).

(** What [main] does to the outside, in order. *)
Inductive event :=
  | Getenv (name : string)           (* os.environ.get(name, default) *)
  | Bind (host : string) (port : Z)  (* server_bind: socket.bind((host, port)) *)
  | Print (text : string)            (* print(text) *)
  | ServeForever (root : string)     (* httpd.serve_forever(), handlers made by
                                        partial(NoCacheHandler, directory=root) *)
  | ServerClose.                     (* httpd.server_close() *)

(** The process the program starts in.  [bind_error host port] is the
    exception that binding and activating the socket raises, if any;
    [interrupt] is the exception that ends [serve_forever], [None] when
    nothing ever ends it. *)
Record process := {
  environ : gmap string string;
  getcwd : string;
  bind_error : string -> Z -> option exn;
  interrupt : option exn;
}.

(** How a call ends. *)
Inductive outcome :=
  | Returned
  | Raised (e : exn).

(** The exit status of [python server.py]: 0 when [main] returns; an
    uncaught exception ends the interpreter with a non-zero status. *)
Definition exit_status (o : outcome) : Z :=
  match o with
  | Returned => 0
  | Raised _ => 1
  end.

Section Main.

(** [int(s)] for a [str]; [None] is [ValueError]. *)
Variable int : string -> option Z.

(** [os.environ.get(name, default)]. *)
Definition environ_get (p : process) (name default : string) : string :=
  match environ p !! name with
  | Some value => value
  | None => default
  end.

(** The f-string that [main] prints once the server is bound. *)
Definition banner (p : process) (root : string) (port : Z) : string :=
  "Serving " +:+ posixpath.abspath (getcwd p) root +:+
  " on http://127.0.0.1:" +:+ Str.of_Z port +:+ " with no-cache headers".

(** [main()]: the events, and how the call ends ([None]: it does not
    end, the server keeps serving). *)
Definition main (p : process) : list event * option outcome :=
  match int (environ_get p "PORT" "8000") with
  | None => ([Getenv "PORT"], Some (Raised ValueError))
  | Some port =>
      let root := environ_get p "ROOT_DIR" "./" in
      let started := [Getenv "PORT"; Getenv "ROOT_DIR"; Bind "127.0.0.1" port] in
      match bind_error p "127.0.0.1" port with
      | Some e =>
          (* TCPServer.__init__: except: self.server_close(); raise *)
          ((started ++ [ServerClose])%list, Some (Raised e))
      | None =>
          let serving :=
            (started ++ [Print (banner p root port); ServeForever root])%list in
          match interrupt p with
          | None => (serving, None)
          | Some KeyboardInterrupt =>
              (* except KeyboardInterrupt, finally, then __exit__ *)
              ((serving ++ [Print (LF +:+ "Shutting down..."); ServerClose;
                            ServerClose])%list,
               Some Returned)
          | Some e =>
              (* finally, then __exit__; the exception goes on *)
              ((serving ++ [ServerClose; ServerClose])%list, Some (Raised e))
          end
      end
  end.

End Main.

(** [int] on the decimal literals of the examples: an optional sign and
    ASCII digits. *)
Fixpoint digits (acc : Z) (seen : bool) (s : string) : option Z :=
  match s with
  | EmptyString => if seen then Some acc else None
  | String a s' =>
      let n := N_of_ascii a in
      if ((48 <=? n) && (n <=? 57))%N
      then digits (10 * acc + Z.of_N (n - 48)) true s'
      else None
  end.

(** [int_decimal s]: the value of the literal; [None] when [s] is not one. *)
Definition int_decimal (s : string) : option Z :=
  match s with
  | String "-" s' => Z.opp <$> digits 0 false s'
  | String "+" s' => digits 0 false s'
  | _ => digits 0 false s
  end.

(** The number of events of a kind in a trace. *)
Definition count_event (e : event -> bool) (trace : list event) : nat :=
  length (List.filter e trace).

(** Kinds of events. *)
Definition is_getenv (name : string) (e : event) : bool :=
  match e with Getenv n => String.eqb n name | _ => false end.

Definition is_bind (e : event) : bool :=
  match e with Bind _ _ => true | _ => false end.

Definition is_serve (e : event) : bool :=
  match e with ServeForever _ => true | _ => false end.

Definition is_close (e : event) : bool :=
  match e with ServerClose => true | _ => false end.

(** ** What a client observes *)

(** The head of the answer: the first write, absent under HTTP/0.9. *)
Definition response_head (h : handler) : option string :=
  if is_http09 h then None else head (wfile h).

(** The body of the answer: every write after the head. *)
Definition response_body (h : handler) : string :=
  Str.join (if is_http09 h then wfile h else tail (wfile h)).

(** The codes among log records ([status_codes] on a list). *)
Definition codes (records : list log_record) : list Z :=
  omap (fun r => match r with log_request c => Some c | log_error _ _ => None end)
       records.

(** * Vocabulary of the properties *)

(** A plain file or directory name: not empty, without a slash, and
    neither [.] nor [..]. *)
Definition simple_name (name : string) : Prop :=
  name <> EmptyString /\ Str.contains "/" name = false /\
  name <> posixpath.curdir /\ name <> posixpath.pardir.







(** The loop of [translate_path] on words that are already split. *)
Definition translate_words (words : list string) (directory : string) : string :=
  fold_left
    (fun path word =>
       if Str.truthy (posixpath.dirname word)
          || String.eqb word posixpath.curdir || String.eqb word posixpath.pardir
       then path
       else posixpath.join path word)
    words directory.

(** Both [end_headers] methods are instances of [finish]: outside
    HTTP/0.9 the buffered lines, then [extra], then the blank line are
    written in one piece and the buffer is emptied. *)
Definition finish (extra : list string) (h : handler) : handler :=
  if is_http09 h then h
  else set_headers_buffer []
         (write (Str.join (headers_buffer h ++ extra ++ [CRLF])) h).

(** Every run of the handler changes four attributes only. *)
Definition upd (h : handler) (b wf : list string) (cc : bool)
    (lg : list log_record) : handler :=
  {| directory := directory h; command := command h; path := path h;
     request_version := request_version h; headers := headers h;
     headers_buffer := b; wfile := wf; close_connection := cc; log := lg |}.

(** Buffering header lines: nothing under HTTP/0.9. *)
Definition buf (lines : list string) (h : handler) : handler :=
  if is_http09 h then h
  else upd h (headers_buffer h ++ lines) (wfile h) (close_connection h) (log h).

(** The shape of every answer: [records] are logged, the head (buffered
    lines, [lines], [extra], blank line) is written in one piece unless
    the request is HTTP/0.9, then the writes of [body] follow. *)
Definition respond (extra : list string) (records : list log_record)
    (cc : option bool) (lines body : list string) (h : handler) : handler :=
  upd h
    (if is_http09 h then headers_buffer h else [])
    (wfile h ++
     (if is_http09 h then []
      else [Str.join (headers_buffer h ++ lines ++ extra ++ [CRLF])]) ++ body)
    (default (close_connection h) cc)
    (log h ++ records).

(** The world at time [t]. *)
Definition at_time (f : filesystem) (t : Z) : world := {| fs := f; time := t |}.

(** A run, given [extra] and the time, has the shape of [respond]: its
    body, the file object it hands on, [close_connection] and the log
    records do not depend on the time, and only the head on [extra]. *)
Definition shape_of (run : list string -> Z -> handler * option string)
    (h : handler) : Prop :=
  exists (body : list string) (cc : option bool) (o : option string)
         (records : list log_record),
    forall t, exists lines,
      lines <> [] /\
      forall extra, run extra t = (respond extra records cc lines body h, o).

Section Parts.
Context {L : Library}.
Variable extra : list string.
Variable w : world.

(** The three lines of [send_response]. *)
Definition response_lines (code : Z) (message : string) : list string :=
  [ status_line code message;
    header_line "Server" version_string;
    header_line "Date" (date_time_string (time w)) ].

(** The body of an error page. *)
Definition error_body (code : Z) (message explain : string) : string :=
  utf8 (error_message_format code (html_escape message) (html_escape explain)).

(** The head of an error page. *)
Definition error_lines (code : Z) (message explain : string) : list string :=
  response_lines code message ++
  [ header_line "Connection" "close";
    header_line "Content-Type" error_content_type;
    header_line "Content-Length"
      (Str.of_Z (Z.of_nat (String.length (error_body code message explain)))) ].

(** The head of a 200 answer for a file. *)
Definition file_lines (path : string) (f : file) : list string :=
  response_lines HTTPStatus.OK "OK" ++
  [ header_line "Content-type" (guess_type path);
    header_line "Content-Length" (Str.of_Z (st_size f));
    header_line "Last-Modified" (date_time_string (st_mtime f)) ].

(** The answer of [send_error(HTTPStatus.NOT_FOUND, message)]. *)
Definition not_found (message : string) (h : handler) : handler :=
  respond extra [log_error HTTPStatus.NOT_FOUND message;
                 log_request HTTPStatus.NOT_FOUND] (Some true)
    (error_lines HTTPStatus.NOT_FOUND message "Nothing matches the given URI")
    (if negb (String.eqb (command h) "HEAD")
        && Str.truthy (error_body HTTPStatus.NOT_FOUND message
                         "Nothing matches the given URI")
     then [error_body HTTPStatus.NOT_FOUND message "Nothing matches the given URI"]
     else [])
    h.

(** The bytes of the listing that [list_directory] produces. *)
Definition listing (dir : string) (names : list string) (h : handler) : string :=
  let displaypath :=
    match unquote_surrogatepass (path h) with
    | Some d => d
    | None => unquote dir
    end in
  fsencode (String.concat LF
              (listing_lines (fs w) dir (html_escape displaypath)
                 (sort_by_lower names))).

(** The head of a directory listing. *)
Definition listing_head (encoded : string) : list string :=
  response_lines HTTPStatus.OK "OK" ++
  [ header_line "Content-type" ("text/html; charset=" +:+ fsencoding);
    header_line "Content-Length" (Str.of_Z (Z.of_nat (String.length encoded))) ].

(** The head of the redirection of a directory URL without a slash. *)
Definition redirect_lines (h : handler) : list string :=
  response_lines HTTPStatus.MOVED_PERMANENTLY "Moved Permanently" ++
  [ header_line "Location" (urlunsplit_slash (path h));
    header_line "Content-Length" "0" ].

End Parts.

(** The reason phrase for a method without a [do_] method. *)
Definition unsupported_message {L : Library} (command : string) : string :=
  "Unsupported method (" +:+ repr command +:+ ")".

(** ** A concrete library and file system for the examples *)

Module Demo.

(** Each field agrees with the Python function on the inputs of the
    examples: ASCII text without percent escapes, quotes or markup. *)
#[export] Instance library : Library := {|
  repr s := "'" +:+ s +:+ "'";
  unquote_surrogatepass s := Some s;
  unquote s := s;
  quote s := s;
  urlsplit_path s := Str.before "#" (Str.before "?" s);
  urlunsplit_slash s := s +:+ "/";
  guess_type p := if Str.endswith ".html" p then "text/html" else "text/plain";
  formatdate t := Str.of_Z t;
  version_string := "SimpleHTTP/0.6 Python/3.11.2";
  parsedate_utc s := if String.eqb s "Thu, 01 Jan 1970 00:01:40 GMT" then Some 100
                     else None;
  utf8 s := s;
  fsencoding := "utf-8";
  fsencode s := s;
|}.

(** [p in l]. *)
Definition among (p : string) (l : list string) : bool := existsb (String.eqb p) l.

(** A readable file with these bytes. *)
Definition regular (data : string) : file :=
  {| content := data; st_size := Z.of_nat (String.length data); st_mtime := 7 |}.

(** Root [./] holds [index.html] ("hello"), [secret.txt] ("inner"), an
    unreadable [locked.txt], a directory [docs] with [b.txt] and [A.txt],
    and a directory [private] whose [index.html] cannot be opened;
    [../secret.txt] ("outer") lies above the root. *)
Definition tree : filesystem := {|
  isdir p := among p ["./"; "./docs"; "./docs/"; "./private"; "./private/"];
  isfile p := among p ["./index.html"; "./secret.txt"; "./locked.txt";
                       "./docs/b.txt"; "./docs/A.txt";
                       "./private/index.html"; "./../secret.txt"];
  islink p := false;
  open_rb p :=
    if String.eqb p "./index.html" then Some (regular "hello")
    else if String.eqb p "./secret.txt" then Some (regular "inner")
    else if String.eqb p "./../secret.txt" then Some (regular "outer")
    else if String.eqb p "./docs/b.txt" then Some (regular "b")
    else if String.eqb p "./docs/A.txt" then Some (regular "a")
    else None;
  listdir p :=
    if among p ["./"; "."] then
      Some ["secret.txt"; "index.html"; "docs"; "locked.txt"; "private"]
    else if among p ["./docs"; "./docs/"] then Some ["b.txt"; "A.txt"]
    else if among p ["./private"; "./private/"] then Some ["index.html"]
    else None;
|}.

(** The same tree with other bytes in [../secret.txt], above the root. *)
Definition tree_changed_outside : filesystem := {|
  isdir := isdir tree;
  isfile := isfile tree;
  islink := islink tree;
  open_rb p :=
    if String.eqb p "./../secret.txt" then Some (regular "changed")
    else open_rb tree p;
  listdir := listdir tree;
|}.

(** The demo file system at time 1000. *)
Definition w : world := {| fs := tree; time := 1000 |}.

(** The answer of the demo server to one request. *)
Definition request (command version path : string)
    (headers : list (string * string)) : handler :=
  NoCacheHandler.handle_one_request w
    (NoCacheHandler.init "./" command path version headers).

End Demo.

(** Processes for the examples. *)
Definition demo_process (env : gmap string string) (stop : option exn) : process :=
  {| environ := env; getcwd := "/srv/site";
     bind_error := fun _ _ => None; interrupt := stop |}.

(** ** The kinds of answers *)

(** What [send_head] and [handle_one_request] decide on, read off their
    branches: a redirection, a 304, a file, a directory listing, or an
    error page. *)
Inductive answer :=
  | Moved
  | NotModified
  | Document (name : string) (f : file)
  | Listing (dir : string) (names : list string)
  | Failed (code : Z) (message explain : string).

(** The status code of an answer. *)
Definition answer_code (a : answer) : Z :=
  match a with
  | Moved => HTTPStatus.MOVED_PERMANENTLY
  | NotModified => HTTPStatus.NOT_MODIFIED
  | Document _ _ => HTTPStatus.OK
  | Listing _ _ => HTTPStatus.OK
  | Failed code _ _ => code
  end.

(** The reason phrase of its status line. *)
Definition answer_message (a : answer) : string :=
  match a with
  | Moved => "Moved Permanently"
  | NotModified => "Not Modified"
  | Document _ _ => "OK"
  | Listing _ _ => "OK"
  | Failed _ message _ => message
  end.

(** What it logs: [send_error] logs the error, then [send_response] the
    request. *)
Definition answer_records (a : answer) : list log_record :=
  match a with
  | Failed code message _ => [log_error code message; log_request code]
  | _ => [log_request (answer_code a)]
  end.

(** [Connection: close] goes with error pages only. *)
Definition answer_close (a : answer) : option bool :=
  match a with
  | Failed _ _ _ => Some true
  | _ => None
  end.


(** An answer whose bytes do not depend on the request path as sent:
    neither the redirection, which repeats it in [Location], nor the
    listing, which repeats it in its title. *)
Definition pathless (a : answer) : Prop :=
  match a with
  | Moved => False
  | Listing _ _ => False
  | _ => True
  end.

Section Answers.
Context {L : Library}.

(** The branch that [send_head] takes from [ctype = self.guess_type(path)]
    on. *)
Definition file_answer (f : filesystem) (name : string) (h : handler) : answer :=
  if Str.endswith "/" name then
    Failed HTTPStatus.NOT_FOUND "File not found" "Nothing matches the given URI"
  else
    match open_rb f name with
    | None =>
        Failed HTTPStatus.NOT_FOUND "File not found" "Nothing matches the given URI"
    | Some data => if not_modified data h then NotModified else Document name data
    end.

(** The branch that [send_head] takes. *)
Definition head_answer (f : filesystem) (h : handler) : answer :=
  let file_path := translate_path (directory h) (path h) in
  if isdir f file_path then
    if negb (Str.endswith "/" (urlsplit_path (path h))) then Moved
    else
      match find_index f file_path with
      | Some index => file_answer f index h
      | None =>
          match listdir f file_path with
          | Some names => Listing file_path names
          | None =>
              Failed HTTPStatus.NOT_FOUND "No permission to list directory"
                "Nothing matches the given URI"
          end
      end
  else file_answer f file_path h.

(** The branch that [handle_one_request] takes. *)
Definition request_answer (f : filesystem) (h : handler) : answer :=
  if String.eqb (command h) "GET" || String.eqb (command h) "HEAD"
  then head_answer f h
  else Failed HTTPStatus.NOT_IMPLEMENTED (unsupported_message (command h))
         "Server does not support this operation".

Variable w : world.
Variable h : handler.

(** The header fields sent before [end_headers] is called, in order. *)
Definition answer_fields (a : answer) : list (string * string) :=
  [ ("Server", version_string); ("Date", date_time_string (time w)) ] ++
  match a with
  | Moved =>
      [ ("Location", urlunsplit_slash (path h)); ("Content-Length", "0") ]
  | NotModified => []
  | Document name data =>
      [ ("Content-type", guess_type name);
        ("Content-Length", Str.of_Z (st_size data));
        ("Last-Modified", date_time_string (st_mtime data)) ]
  | Listing dir names =>
      [ ("Content-type", "text/html; charset=" +:+ fsencoding);
        ("Content-Length",
         Str.of_Z (Z.of_nat (String.length (listing w dir names h)))) ]
  | Failed code message explain =>
      [ ("Connection", "close");
        ("Content-Type", error_content_type);
        ("Content-Length",
         Str.of_Z (Z.of_nat (String.length (error_body code message explain)))) ]
  end.

(** The lines buffered before [end_headers] is called. *)
Definition answer_lines (a : answer) : list string :=
  status_line (answer_code a) (answer_message a)
  :: map (fun field => header_line (fst field) (snd field)) (answer_fields a).

(** The error page that [send_error] writes after the head. *)
Definition answer_page (a : answer) : list string :=
  match a with
  | Failed code message explain =>
      if negb (String.eqb (command h) "HEAD")
         && Str.truthy (error_body code message explain)
      then [error_body code message explain] else []
  | _ => []
  end.

(** The file object that [send_head] returns. *)
Definition answer_source (a : answer) : option string :=
  match a with
  | Document _ data => Some (content data)
  | Listing dir names => Some (listing w dir names h)
  | _ => None
  end.

(** Every write after the head: the error page, and for [GET] the chunks
    of the file object. *)
Definition answer_writes (a : answer) : list string :=
  (answer_page a ++
   if String.eqb (command h) "GET"
   then from_option copyfileobj [] (answer_source a) else [])%list.

(** The body that a [GET] request is sent. *)
Definition answer_body (a : answer) : string :=
  match a with
  | Moved => EmptyString
  | NotModified => EmptyString
  | Document _ data => content data
  | Listing dir names => listing w dir names h
  | Failed code message explain => error_body code message explain
  end.

End Answers.

(** A file system with two directories under the root [./]: [vault],
    which cannot be listed, and [blog], which holds [index.html]. *)
Definition small_tree : filesystem := {|
  isdir p := Demo.among p ["./vault"; "./vault/"; "./blog"; "./blog/"];
  isfile p := String.eqb p "./blog/index.html";
  islink p := false;
  open_rb p :=
    if String.eqb p "./blog/index.html" then Some (Demo.regular "posts") else None;
  listdir p :=
    if Demo.among p ["./blog"; "./blog/"] then Some ["index.html"] else None;
|}.

(** A process in which the address is already in use. *)
Definition busy_process : process :=
  {| environ := ∅; getcwd := "/srv/site";
     bind_error := fun _ _ => Some OSError; interrupt := None |}.

(** The line that [main] prints on [KeyboardInterrupt]. *)
Definition shutdown_line : string := LF +:+ "Shutting down...".

(** * Properties *)

(** ** What [end_headers] does to the buffer

    Both [end_headers] methods are instances of [finish]: outside
    HTTP/0.9 the buffered lines, then [extra], then the blank line are
    written in one piece and the buffer is emptied. *)

Lemma base_end_headers_finish h :
  BaseHTTPRequestHandler.end_headers h = finish [] h.
Proof.
  unfold BaseHTTPRequestHandler.end_headers, finish, flush_headers.
  destruct (is_http09 h); simpl; [done|].
  destruct (headers_buffer h); reflexivity.
Qed.

Ltac hsimpl :=
  unfold is_http09, upd, set_headers_buffer, write, set_close_connection,
    log_message in *;
  cbn [directory command path request_version headers headers_buffer wfile
       close_connection log negb fst snd default from_option] in *.

(** Unfold the normal forms on a handler given by its fields and split
    on the request version. *)
Ltac by_fields h :=
  let E := fresh "E" in
  destruct h as [?d ?c ?p v ?hs ?b ?wf ?cc ?lg];
  unfold respond, finish, buf;
  destruct (String.eqb v "HTTP/0.9") eqn:E;
  repeat (progress (hsimpl; rewrite ?E));
  rewrite <- ?app_assoc, ?app_nil_r; reflexivity.

(** Generic facts on the normal forms, over arbitrary lines. *)

Lemma buf_buf l1 l2 h : buf l2 (buf l1 h) = buf (l1 ++ l2) h.
Proof. by_fields h. Qed.

Lemma buf_set_close l c h :
  buf l (set_close_connection c h) = set_close_connection c (buf l h).
Proof. by_fields h. Qed.

Lemma finish_buf extra l h : finish extra (buf l h) = finish (l ++ extra) h.
Proof. by_fields h. Qed.

Lemma finish_set_close extra c h :
  finish extra (set_close_connection c h) = set_close_connection c (finish extra h).
Proof. by_fields h. Qed.

Lemma finish_log1 extra r lines h :
  finish extra (buf lines (log_message r h)) = respond extra [r] None lines [] h.
Proof. by_fields h. Qed.

Lemma finish_log2 extra r1 r2 lines h :
  finish extra (buf lines (log_message r2 (log_message r1 h))) =
  respond extra [r1; r2] None lines [] h.
Proof. by_fields h. Qed.

Lemma set_close_respond extra c records lines body h :
  set_close_connection c (respond extra records None lines body h) =
  respond extra records (Some c) lines body h.
Proof. by_fields h. Qed.

Lemma write_respond extra records cc lines data h :
  write data (respond extra records cc lines [] h) =
  respond extra records cc lines [data] h.
Proof. by_fields h. Qed.

Lemma path_buf l h : path (buf l h) = path h.
Proof. unfold buf. destruct (is_http09 h); reflexivity. Qed.

Lemma command_respond extra records cc lines body h :
  command (respond extra records cc lines body h) = command h.
Proof. reflexivity. Qed.

Lemma send_header_buf keyword value h :
  String.eqb (Str.lower keyword) "connection" = false ->
  send_header keyword value h = buf [header_line keyword value] h.
Proof.
  intros K. unfold send_header, buf. rewrite K.
  destruct (is_http09 h); destruct h; reflexivity.
Qed.

Lemma send_header_connection_close h :
  send_header "Connection" "close" h =
  set_close_connection true (buf [header_line "Connection" "close"] h).
Proof.
  unfold send_header, buf.
  change (String.eqb (Str.lower "Connection") "connection") with true.
  change (String.eqb (Str.lower "close") "close") with true.
  destruct (is_http09 h); destruct h; reflexivity.
Qed.

Lemma send_response_only_buf code message h :
  send_response_only code (Some message) h = buf [status_line code message] h.
Proof.
  unfold send_response_only, buf.
  destruct (is_http09 h); destruct h; reflexivity.
Qed.

Lemma no_cache_end_headers_finish h :
  NoCacheHandler.end_headers h = finish NoCacheHandler.no_cache_lines h.
Proof.
  unfold NoCacheHandler.end_headers, SimpleHTTPRequestHandler.end_headers.
  rewrite base_end_headers_finish, !send_header_buf by reflexivity.
  rewrite !buf_buf, finish_buf. reflexivity.
Qed.

Section Responses.
Context {L : Library}.
Variable extra : list string.
Variable w : world.

Lemma send_response_buf code message h :
  send_response w code (Some message) h =
  buf (response_lines w code message) (log_message (log_request code) h).
Proof.
  unfold send_response.
  rewrite send_response_only_buf, !send_header_buf by reflexivity.
  rewrite !buf_buf. reflexivity.
Qed.

Lemma send_response_default code short long h :
  responses code = Some (short, long) ->
  send_response w code None h = send_response w code (Some short) h.
Proof.
  intros R. unfold send_response, send_response_only. now rewrite R.
Qed.

(** An error page: [send_error] on a code that carries a body. *)
Lemma send_error_respond code message short long h :
  responses code = Some (short, long) ->
  (200 <=? code) &&
  negb ((code =? HTTPStatus.NO_CONTENT) || (code =? HTTPStatus.RESET_CONTENT)
        || (code =? HTTPStatus.NOT_MODIFIED)) = true ->
  send_error (finish extra) w code (Some message) None h =
  respond extra [log_error code message; log_request code] (Some true)
    (error_lines w code message long)
    (if negb (String.eqb (command h) "HEAD")
        && Str.truthy (error_body code message long)
     then [error_body code message long] else [])
    h.
Proof.
  intros R B. unfold send_error. rewrite R, B.
  cbn [default from_option id].
  rewrite send_response_buf, send_header_connection_close.
  rewrite !send_header_buf by reflexivity.
  rewrite !buf_buf, buf_set_close, buf_buf.
  rewrite finish_set_close, finish_log2, set_close_respond, command_respond.
  unfold error_lines, error_body.
  destruct (negb (String.eqb (command h) "HEAD") && Str.truthy _).
  - rewrite write_respond. rewrite <- !app_assoc. reflexivity.
  - rewrite <- !app_assoc. reflexivity.
Qed.

Lemma send_error_not_found message h :
  send_error (finish extra) w HTTPStatus.NOT_FOUND (Some message) None h =
  not_found extra w message h.
Proof.
  unfold not_found.
  exact (send_error_respond HTTPStatus.NOT_FOUND message "Not Found"
           "Nothing matches the given URI" h eq_refl eq_refl).
Qed.

Lemma send_head_file_slash path h :
  Str.endswith "/" path = true ->
  send_head_file (finish extra) w path h = (not_found extra w "File not found" h, None).
Proof.
  intros S. unfold send_head_file. rewrite S.
  rewrite send_error_not_found. reflexivity.
Qed.

Lemma send_head_file_unreadable path h :
  open_rb (fs w) path = None ->
  send_head_file (finish extra) w path h = (not_found extra w "File not found" h, None).
Proof.
  intros O. unfold send_head_file. rewrite O, send_error_not_found.
  destruct (Str.endswith "/" path); reflexivity.
Qed.

Lemma send_head_file_not_modified path f h :
  Str.endswith "/" path = false ->
  open_rb (fs w) path = Some f ->
  not_modified f h = true ->
  send_head_file (finish extra) w path h =
  (respond extra [log_request HTTPStatus.NOT_MODIFIED] None
     (response_lines w HTTPStatus.NOT_MODIFIED "Not Modified") [] h, None).
Proof.
  intros S O M. unfold send_head_file. rewrite S, O, M. f_equal.
  rewrite (send_response_default HTTPStatus.NOT_MODIFIED "Not Modified"
             "Document has not changed since given time" _ eq_refl).
  rewrite send_response_buf. apply finish_log1.
Qed.

Lemma send_head_file_ok path f h :
  Str.endswith "/" path = false ->
  open_rb (fs w) path = Some f ->
  not_modified f h = false ->
  send_head_file (finish extra) w path h =
  (respond extra [log_request HTTPStatus.OK] None (file_lines w path f) [] h,
   Some (content f)).
Proof.
  intros S O M. unfold send_head_file. rewrite S, O, M. f_equal.
  rewrite (send_response_default HTTPStatus.OK "OK"
             "Request fulfilled, document follows" _ eq_refl).
  rewrite send_response_buf, !send_header_buf by reflexivity.
  rewrite !buf_buf, finish_log1. reflexivity.
Qed.

Lemma list_directory_ok dir names h :
  listdir (fs w) dir = Some names ->
  list_directory (finish extra) w dir h =
  (respond extra [log_request HTTPStatus.OK] None
     (listing_head w (listing w dir names h)) [] h,
   Some (listing w dir names h)).
Proof.
  intros D. unfold list_directory. rewrite D.
  fold (listing w dir names h). f_equal.
  rewrite (send_response_default HTTPStatus.OK "OK"
             "Request fulfilled, document follows" _ eq_refl).
  rewrite send_response_buf, !send_header_buf by reflexivity.
  rewrite !buf_buf, finish_log1. reflexivity.
Qed.

Lemma list_directory_unreadable dir h :
  listdir (fs w) dir = None ->
  list_directory (finish extra) w dir h =
  (not_found extra w "No permission to list directory" h, None).
Proof.
  intros D. unfold list_directory. rewrite D.
  rewrite send_error_not_found. reflexivity.
Qed.

Lemma send_head_redirect h :
  isdir (fs w) (translate_path (directory h) (path h)) = true ->
  Str.endswith "/" (urlsplit_path (path h)) = false ->
  send_head (finish extra) w h =
  (respond extra [log_request HTTPStatus.MOVED_PERMANENTLY] None
     (redirect_lines w h) [] h, None).
Proof.
  intros D S. unfold send_head. rewrite D, S. cbn [negb]. f_equal.
  rewrite (send_response_default HTTPStatus.MOVED_PERMANENTLY "Moved Permanently"
             "Object moved permanently -- see URI list" _ eq_refl).
  rewrite send_response_buf, !send_header_buf by reflexivity.
  rewrite path_buf. cbn [path log_message].
  rewrite !buf_buf, finish_log1. reflexivity.
Qed.

(** [copyfile] appends the chunks of [copyfileobj] to [wfile]. *)
Lemma copyfile_writes source h :
  copyfile source h =
  upd h (headers_buffer h) (wfile h ++ copyfileobj source)
    (close_connection h) (log h).
Proof.
  unfold copyfile. generalize (copyfileobj source) as chunks.
  intros chunks. revert h.
  induction chunks as [|chunk chunks IH]; intros h; cbn [fold_left].
  - rewrite app_nil_r. now destruct h.
  - rewrite IH. destruct h. unfold upd, write; cbn.
    now rewrite <- app_assoc.
Qed.

Lemma copyfile_respond records cc lines body source h :
  copyfile source (respond extra records cc lines body h) =
  respond extra records cc lines (body ++ copyfileobj source) h.
Proof.
  rewrite copyfile_writes. generalize (copyfileobj source) as chunks.
  intros chunks. by_fields h.
Qed.

End Responses.

(** ** [copyfileobj] delivers the whole stream *)

Lemma append_cons a s t : String a s +:+ t = String a (s +:+ t).
Proof. reflexivity. Qed.

Lemma append_empty_r s : s +:+ EmptyString = s.
Proof. induction s as [|a s IH]; [reflexivity|]. now rewrite append_cons, IH. Qed.

Lemma append_assoc s t u : (s +:+ t) +:+ u = s +:+ (t +:+ u).
Proof. induction s as [|a s IH]; [reflexivity|]. now rewrite !append_cons, IH. Qed.

Lemma length_append s t :
  String.length (s +:+ t) = (String.length s + String.length t)%nat.
Proof.
  induction s as [|a s IH]; [reflexivity|].
  rewrite append_cons. cbn [String.length]. now rewrite IH.
Qed.

Lemma read_app n src : fst (read n src) +:+ snd (read n src) = src.
Proof.
  revert src. induction n as [|n IH]; intros [|a src]; cbn; try reflexivity.
  specialize (IH src). destruct (read n src) as [chunk rest]. cbn [fst snd] in *.
  rewrite <- IH. reflexivity.
Qed.

Lemma read_length n src :
  (String.length (snd (read n src)) + String.length (fst (read n src)))%nat
  = String.length src.
Proof.
  rewrite <- (read_app n src) at 3.
  rewrite length_append. apply Nat.add_comm.
Qed.

Lemma read_empty n src : (0 < n)%nat -> fst (read n src) = EmptyString -> src = EmptyString.
Proof.
  destruct n as [|n]; [inversion 1|]. intros _. destruct src as [|a src]; [done|].
  cbn. now destruct (read n src).
Qed.

Lemma join_cons s l : Str.join (s :: l) = s +:+ Str.join l.
Proof.
  unfold Str.join. destruct l as [|t l]; cbn [String.concat].
  - now rewrite append_empty_r.
  - reflexivity.
Qed.


Lemma copyfileobj_loop_join n fuel src :
  (0 < n)%nat -> (String.length src < fuel)%nat ->
  Str.join (copyfileobj_loop fuel n src) = src.
Proof.
  intros Hn. revert src.
  induction fuel as [|fuel IH]; intros src Hf; [inversion Hf|].
  cbn [copyfileobj_loop].
  pose proof (read_app n src) as App.
  pose proof (read_length n src) as Len.
  pose proof (read_empty n src Hn) as Emp.
  destruct (read n src) as [buf rest]. cbn [fst snd] in *.
  destruct buf as [|a buf]; cbn [Str.truthy negb].
  - now rewrite Emp.
  - rewrite join_cons, IH; [exact App|]. cbn [String.length] in Len. lia.
Qed.

Lemma copyfileobj_join src : Str.join (copyfileobj src) = src.
Proof.
  apply copyfileobj_loop_join; [|lia].
  unfold COPY_BUFSIZE. lia.
Qed.

(** ** [translate_path] stays below the root *)

Lemma split_no_sep c s : Forall (fun w => Str.contains c w = false) (Str.split c s).
Proof.
  induction s as [|a s IH]; cbn.
  - repeat constructor.
  - destruct (Ascii.eqb a c) eqn:E.
    + constructor; [reflexivity|exact IH].
    + destruct (Str.split c s) as [|w ws].
      * constructor; [|constructor]. cbn [Str.contains]. now rewrite E.
      * inversion IH as [|? ? Hw Hws]; subst.
        constructor; [|exact Hws]. cbn [Str.contains]. now rewrite E.
Qed.

Lemma dirname_no_sep name :
  Str.contains "/" name = false -> posixpath.dirname name = EmptyString.
Proof.
  intros C. unfold posixpath.dirname, posixpath.sep.
  destruct name as [|a name]; [reflexivity|].
  cbn [Str.through_last]. now rewrite C.
Qed.

Lemma truthy_nonempty s : Str.truthy s = true -> s <> EmptyString.
Proof. now destruct s. Qed.

(** Joining a plain name keeps all of the path it extends. *)
Lemma join_simple_name p name :
  simple_name name ->
  posixpath.join p name = p +:+ name \/ posixpath.join p name = p +:+ "/" +:+ name.
Proof.
  intros (Hne & Hc & _). unfold posixpath.join.
  destruct name as [|a name]; [done|].
  cbn in Hc. apply orb_false_iff in Hc as [Ha _].
  unfold Str.startswith. cbn [String.prefix].
  destruct (ascii_dec "/" a) as [<-|Hd]; [discriminate Ha|].
  destruct (negb (Str.truthy p) || Str.endswith "/" p); auto.
Qed.

Section TranslatePath.
Context {L : Library}.



End TranslatePath.

(** ** The shape of every answer

    Whatever the request and the file system, a handler whose
    [end_headers] is [finish extra] answers with one head that ends in
    [extra] and the blank line, followed by body writes; the body, the
    file object handed to [copyfile] and [close_connection] do not
    depend on the clock, and nothing but the head depends on [extra]. *)

Ltac lines_nonempty :=
  unfold error_lines, file_lines, listing_head, redirect_lines, response_lines;
  cbn [app]; discriminate.

Section Shape.
Context {L : Library}.
Variable f : filesystem.

Lemma not_found_shape message h :
  shape_of (fun extra t => (not_found extra (at_time f t) message h, None)) h.
Proof.
  unfold shape_of, not_found.
  eexists _, (Some true), None, _. intros t. eexists. split; cycle 1.
  - intros extra. reflexivity.
  - lines_nonempty.
Qed.

Lemma shape_of_ext run1 run2 h :
  (forall extra t, run1 extra t = run2 extra t) -> shape_of run2 h -> shape_of run1 h.
Proof.
  intros E (body & cc & o & r & H). exists body, cc, o, r. intros t.
  destruct (H t) as (l & Hl & Hr). exists l. split; [exact Hl|].
  intros extra. rewrite E. apply Hr.
Qed.

Lemma send_head_file_shape path h :
  shape_of (fun extra t => send_head_file (finish extra) (at_time f t) path h) h.
Proof.
  destruct (Str.endswith "/" path) eqn:S.
  { eapply shape_of_ext; [|apply (not_found_shape "File not found")].
    intros extra t. apply send_head_file_slash. exact S. }
  destruct (open_rb f path) as [file|] eqn:O.
  2:{ eapply shape_of_ext; [|apply (not_found_shape "File not found")].
      intros extra t. apply send_head_file_unreadable. exact O. }
  destruct (not_modified file h) eqn:M.
  - exists [], None, None. eexists. intros t. eexists. split; cycle 1.
    + intros extra.
      apply (send_head_file_not_modified extra (at_time f t) path file h S O M).
    + lines_nonempty.
  - exists [], None, (Some (content file)). eexists. intros t. eexists.
    split; cycle 1.
    + intros extra. apply (send_head_file_ok extra (at_time f t) path file h S O M).
    + lines_nonempty.
Qed.

Lemma list_directory_shape dir h :
  shape_of (fun extra t => list_directory (finish extra) (at_time f t) dir h) h.
Proof.
  destruct (listdir f dir) as [names|] eqn:D.
  - exists [], None, (Some (listing (at_time f 0) dir names h)). eexists.
    intros t. eexists. split; cycle 1.
    + intros extra. apply (list_directory_ok extra (at_time f t) dir names h D).
    + lines_nonempty.
  - eapply shape_of_ext;
      [|apply (not_found_shape "No permission to list directory")].
    intros extra t. apply list_directory_unreadable. exact D.
Qed.

Lemma send_head_shape h :
  shape_of (fun extra t => send_head (finish extra) (at_time f t) h) h.
Proof.
  destruct (isdir f (translate_path (directory h) (path h))) eqn:D.
  - destruct (Str.endswith "/" (urlsplit_path (path h))) eqn:S.
    + destruct (find_index f (translate_path (directory h) (path h)))
        as [index|] eqn:I.
      * eapply shape_of_ext; [|apply (send_head_file_shape index h)].
        intros extra t. unfold send_head. cbn [fs at_time].
        rewrite D, S, I. reflexivity.
      * eapply shape_of_ext;
          [|apply (list_directory_shape (translate_path (directory h) (path h)) h)].
        intros extra t. unfold send_head. cbn [fs at_time].
        rewrite D, S, I. reflexivity.
    + exists [], None, None. eexists. intros t. eexists. split; cycle 1.
      * intros extra. apply (send_head_redirect extra (at_time f t) h D S).
      * lines_nonempty.
  - eapply shape_of_ext;
      [|apply (send_head_file_shape (translate_path (directory h) (path h)) h)].
    intros extra t. unfold send_head. cbn [fs at_time]. rewrite D. reflexivity.
Qed.

(** The same for a whole request: nothing is handed on. *)
Lemma handle_one_request_shape h :
  exists (body : list string) (cc : option bool) (records : list log_record),
    forall t, exists lines,
      lines <> [] /\
      forall extra,
        handle_one_request (finish extra) (at_time f t) h =
        respond extra records cc lines body h.
Proof.
  unfold handle_one_request.
  destruct (String.eqb (command h) "GET") eqn:G;
    [|destruct (String.eqb (command h) "HEAD") eqn:H].
  - destruct (send_head_shape h) as (body & cc & o & r & S).
    exists (body ++ from_option copyfileobj [] o)%list, cc, r. intros t.
    destruct (S t) as (l & Hl & E). exists l. split; [exact Hl|].
    intros extra. unfold do_GET. rewrite E. destruct o as [source|].
    + apply copyfile_respond.
    + cbn [from_option]. now rewrite app_nil_r.
  - destruct (send_head_shape h) as (body & cc & o & r & S).
    exists body, cc, r. intros t.
    destruct (S t) as (l & Hl & E). exists l. split; [exact Hl|].
    intros extra. unfold do_HEAD. now rewrite E.
  - eexists _, (Some true), _. intros t. eexists. split; cycle 1.
    + intros extra.
      rewrite (send_error_respond extra (at_time f t) HTTPStatus.NOT_IMPLEMENTED _
                 "Not Implemented" "Server does not support this operation"
                 h eq_refl eq_refl).
      rewrite H. reflexivity.
    + lines_nonempty.
Qed.

End Shape.

(** ** [end_headers] matters through its values only *)

Section Extensionality.
Context {L : Library}.
Variables eh1 eh2 : handler -> handler.
Hypothesis E : forall h, eh1 h = eh2 h.
Variable w : world.

Lemma send_error_ext code message explain h :
  send_error eh1 w code message explain h = send_error eh2 w code message explain h.
Proof.
  unfold send_error.
  destruct (responses code) as [[short long]|];
    destruct ((200 <=? code) && _); cbv zeta; rewrite E; reflexivity.
Qed.

Lemma send_head_file_ext path h :
  send_head_file eh1 w path h = send_head_file eh2 w path h.
Proof.
  unfold send_head_file. rewrite !send_error_ext.
  destruct (Str.endswith "/" path); [reflexivity|].
  destruct (open_rb (fs w) path) as [file|]; [|reflexivity].
  destruct (not_modified file h); cbv zeta; rewrite E; reflexivity.
Qed.

Lemma list_directory_ext dir h :
  list_directory eh1 w dir h = list_directory eh2 w dir h.
Proof.
  unfold list_directory. rewrite send_error_ext.
  destruct (listdir (fs w) dir); [|reflexivity].
  cbv zeta. rewrite E. reflexivity.
Qed.

Lemma send_head_ext h : send_head eh1 w h = send_head eh2 w h.
Proof.
  unfold send_head. cbv zeta.
  destruct (isdir (fs w) _); [|apply send_head_file_ext].
  destruct (negb _); [now rewrite E|].
  destruct (find_index (fs w) _);
    [apply send_head_file_ext|apply list_directory_ext].
Qed.

Lemma handle_one_request_ext h :
  handle_one_request eh1 w h = handle_one_request eh2 w h.
Proof.
  unfold handle_one_request, do_GET, do_HEAD.
  now rewrite send_head_ext, send_error_ext.
Qed.

End Extensionality.

Lemma no_cache_handle_one_request {L : Library} w h :
  NoCacheHandler.handle_one_request w h =
  handle_one_request (finish NoCacheHandler.no_cache_lines) w h.
Proof. apply handle_one_request_ext, no_cache_end_headers_finish. Qed.

Lemma simple_handle_one_request {L : Library} w h :
  SimpleHTTPRequestHandler.handle_one_request w h =
  handle_one_request (finish []) w h.
Proof. apply handle_one_request_ext, base_end_headers_finish. Qed.

Section Fresh.
Variables root command path version : string.
Variable headers : list (string * string).
Variables (extra : list string) (records : list log_record) (cc : option bool).
Variables lines body : list string.

Let h0 := NoCacheHandler.init root command path version headers.

Lemma wfile_respond_init :
  wfile (respond extra records cc lines body h0) =
  ((if String.eqb version "HTTP/0.9" then []
    else [Str.join (lines ++ extra ++ [CRLF])]) ++ body)%list.
Proof. reflexivity. Qed.

Lemma status_codes_respond_init :
  status_codes (respond extra records cc lines body h0) = codes records.
Proof. reflexivity. Qed.

Lemma response_body_respond_init :
  response_body (respond extra records cc lines body h0) = Str.join body.
Proof.
  unfold response_body. rewrite wfile_respond_init.
  change (is_http09 (respond extra records cc lines body h0))
    with (String.eqb version "HTTP/0.9").
  destruct (String.eqb version "HTTP/0.9"); reflexivity.
Qed.

Lemma response_head_respond_init :
  response_head (respond extra records cc lines body h0) =
  if String.eqb version "HTTP/0.9" then None
  else Some (Str.join (lines ++ extra ++ [CRLF])).
Proof.
  unfold response_head. rewrite wfile_respond_init.
  change (is_http09 (respond extra records cc lines body h0))
    with (String.eqb version "HTTP/0.9").
  destruct (String.eqb version "HTTP/0.9"); reflexivity.
Qed.

End Fresh.

(** ** C1: the three headers *)




(** ** C5: methods other than GET and HEAD *)




Lemma finish_request_get {L : Library} root f t path version headers :
  ThreadingHTTPServer.finish_request root f (t, GET path version headers) =
  do_GET (finish NoCacheHandler.no_cache_lines) (at_time f t)
    (NoCacheHandler.init root "GET" path version headers).
Proof.
  unfold ThreadingHTTPServer.finish_request. cbn [fst snd GET req_command
    req_path req_version req_headers].
  rewrite no_cache_handle_one_request. reflexivity.
Qed.

(** ** C6: a file that cannot be opened *)




(** ** C3: a file that exists *)

(** C3, as amended.  A GET request whose translated path is not a
    directory, does not end in a slash, can be opened for reading, and is
    not answered 304 by the [If-Modified-Since] test, is answered with
    status 200 and a body equal to the bytes of the file; the head carries
    the file's headers and the three no-cache headers. *)
Theorem get_file_ok {L : Library} (f : filesystem) (t : Z)
    (root target version : string) (headers : list (string * string))
    (data : file) :
  isdir f (translate_path root target) = false ->
  Str.endswith "/" (translate_path root target) = false ->
  open_rb f (translate_path root target) = Some data ->
  not_modified data (NoCacheHandler.init root "GET" target version headers) = false ->
  let answer :=
    ThreadingHTTPServer.finish_request root f (t, GET target version headers) in
  status_codes answer = [HTTPStatus.OK] /\
  response_body answer = content data /\
  response_head answer =
    (if String.eqb version "HTTP/0.9" then None
     else Some (Str.join
                  (file_lines (at_time f t) (translate_path root target) data
                   ++ NoCacheHandler.no_cache_lines ++ [CRLF]))).
Proof.
  intros D S O M answer. subst answer.
  rewrite finish_request_get. unfold do_GET, send_head.
  change (path (NoCacheHandler.init root "GET" target version headers))
    with target.
  change (directory (NoCacheHandler.init root "GET" target version headers))
    with root.
  cbn [fs at_time]. rewrite D.
  rewrite (send_head_file_ok _ (at_time f t) _ data _ S O M).
  rewrite copyfile_respond.
  rewrite status_codes_respond_init, response_head_respond_init,
    response_body_respond_init.
  cbn [app]. rewrite copyfileobj_join. repeat split.
Qed.

Lemma get_file_ok_witness :
  status_codes
    (ThreadingHTTPServer.finish_request (L := Demo.library) "./" Demo.tree
       (1000, GET "/index.html" "HTTP/1.1" [])) = [200] /\
  response_body
    (ThreadingHTTPServer.finish_request (L := Demo.library) "./" Demo.tree
       (1000, GET "/index.html" "HTTP/1.1" [])) = "hello".
Proof.
  pose proof (get_file_ok (L := Demo.library) Demo.tree 1000
                "./" "/index.html" "HTTP/1.1" [] (Demo.regular "hello")) as T.
  cbv zeta in T.
  destruct T as (S & B & _); [reflexivity|reflexivity|reflexivity|reflexivity|].
  split; [exact S|exact B].
Defined.

(** The claim as the specification words it: [index.html] exists and can
    be read, yet a GET with [If-Modified-Since] later than its
    modification time is answered 304 with an empty body. *)
Lemma get_file_counterexample :
  ~ (forall (L : Library) (f : filesystem) (t : Z) (root target version : string)
            (headers : list (string * string)) (data : file),
       isfile f (translate_path root target) = true ->
       open_rb f (translate_path root target) = Some data ->
       let answer :=
         ThreadingHTTPServer.finish_request root f
           (t, GET target version headers) in
       status_codes answer = [HTTPStatus.OK] /\
       response_body answer = content data).
Proof.
  intros H.
  specialize (H Demo.library Demo.tree 1000 "./" "/index.html" "HTTP/1.1"
                [("If-Modified-Since", "Thu, 01 Jan 1970 00:01:40 GMT")]
                (Demo.regular "hello") eq_refl eq_refl).
  cbv zeta in H. destruct H as [S _].
  assert (status_codes
            (ThreadingHTTPServer.finish_request (L := Demo.library) "./" Demo.tree
               (1000, GET "/index.html" "HTTP/1.1"
                        [("If-Modified-Since", "Thu, 01 Jan 1970 00:01:40 GMT")]))
          = [304]) as K by (vm_compute; reflexivity).
  rewrite K in S. discriminate S.
Qed.

(** ** C8: the same request twice *)

(** C8.  Two GET requests with the same path, version and header fields,
    served from the same file system at two times [t1] and [t2], get the
    same status, byte-identical bodies, and heads that both end in the
    same three no-cache header lines (under HTTP/0.9 neither has a head).
    Only lines before them, such as [Date], may differ. *)
Theorem same_request_twice {L : Library} (f : filesystem) (t1 t2 : Z)
    (root target version : string) (headers : list (string * string)) :
  let first :=
    ThreadingHTTPServer.finish_request root f (t1, GET target version headers) in
  let second :=
    ThreadingHTTPServer.finish_request root f (t2, GET target version headers) in
  status_codes first = status_codes second /\
  response_body first = response_body second /\
  close_connection first = close_connection second /\
  exists lines1 lines2,
    response_head first =
      (if String.eqb version "HTTP/0.9" then None
       else Some (Str.join (lines1 ++ NoCacheHandler.no_cache_lines ++ [CRLF]))) /\
    response_head second =
      (if String.eqb version "HTTP/0.9" then None
       else Some (Str.join (lines2 ++ NoCacheHandler.no_cache_lines ++ [CRLF]))).
Proof.
  intros first second. subst first second.
  unfold ThreadingHTTPServer.finish_request.
  cbn [fst snd GET req_command req_path req_version req_headers].
  rewrite !no_cache_handle_one_request.
  destruct (handle_one_request_shape f
              (NoCacheHandler.init root "GET" target version headers))
    as (body & cc & records & H).
  destruct (H t1) as (lines1 & _ & E1). destruct (H t2) as (lines2 & _ & E2).
  change {| fs := f; time := t1 |} with (at_time f t1).
  change {| fs := f; time := t2 |} with (at_time f t2).
  rewrite E1, E2.
  rewrite !status_codes_respond_init, !response_body_respond_init,
    !response_head_respond_init.
  repeat split. exists lines1, lines2. split; reflexivity.
Qed.

(** ** C10: directories *)

Lemma endswith_slash_app s b :
  b <> EmptyString -> Str.endswith "/" (s +:+ b) = Str.endswith "/" b.
Proof.
  intros B. induction s as [|c s IH]; [reflexivity|].
  rewrite append_cons. cbn [Str.endswith]. rewrite IH.
  destruct (s +:+ b) as [|c' r] eqn:A.
  - destruct s; [exact (False_ind _ (B A))|].
    rewrite append_cons in A. discriminate A.
  - replace (String.eqb (String c (String c' r)) "/") with false.
    + reflexivity.
    + cbn [String.eqb]. destruct (Ascii.eqb c "/"); reflexivity.
Qed.










(** ** Splitting at slashes, and the default root *)

Lemma split_nonempty c s : Str.split c s <> [].
Proof.
  destruct s as [|a s]; cbn [Str.split]; [discriminate|].
  destruct (Ascii.eqb a c); [discriminate|].
  destruct (Str.split c s); discriminate.
Qed.

Lemma split_app_sep c a b :
  Str.split c (a +:+ String c b) = (Str.split c a ++ Str.split c b)%list.
Proof.
  induction a as [|x a IH].
  - change (EmptyString +:+ String c b) with (String c b).
    cbn [Str.split app]. now rewrite Ascii.eqb_refl.
  - rewrite append_cons. cbn [Str.split]. rewrite IH.
    destruct (Ascii.eqb x c); [reflexivity|].
    pose proof (split_nonempty c a) as N.
    destruct (Str.split c a) as [|w ws]; [contradiction|reflexivity].
Qed.

Lemma endswith_slash_decompose p :
  Str.endswith "/" p = true -> exists q, p = q +:+ "/".
Proof.
  induction p as [|a p IH]; [discriminate|].
  cbn [Str.endswith]. intros E. apply orb_true_iff in E as [E|E].
  - apply String.eqb_eq in E. exists EmptyString. exact E.
  - destruct (IH E) as (q & ->). exists (String a q). reflexivity.
Qed.

Lemma normpath_steps_dot n comps :
  fold_left (posixpath.normpath_step n) (comps ++ ["."; EmptyString]) [] =
  fold_left (posixpath.normpath_step n) comps [].
Proof. rewrite fold_left_app. reflexivity. Qed.

Lemma normpath_steps_empty n comps :
  fold_left (posixpath.normpath_step n) (comps ++ [EmptyString]) [] =
  fold_left (posixpath.normpath_step n) comps [].
Proof. rewrite fold_left_app. reflexivity. Qed.

Lemma startswith_slash_cons p :
  Str.startswith "/" p = true -> exists r, p = String "/" r.
Proof.
  destruct p as [|a r]; [discriminate|].
  unfold Str.startswith. cbn [String.prefix].
  destruct (ascii_dec "/" a) as [<-|]; [|discriminate]. now exists r.
Qed.

Lemma prefix_empty s : String.prefix EmptyString s = true.
Proof. now destruct s. Qed.

Lemma initial_slashes_cons3 c2 c3 r r' :
  posixpath.initial_slashes (String "/" (String c2 (String c3 r))) =
  posixpath.initial_slashes (String "/" (String c2 (String c3 r'))).
Proof.
  unfold posixpath.initial_slashes, Str.startswith. cbn [String.prefix].
  repeat destruct (ascii_dec _ _); rewrite ?prefix_empty; reflexivity.
Qed.

Lemma join_dot_slash cwd :
  posixpath.join cwd "./" =
  if negb (Str.truthy cwd) || Str.endswith "/" cwd then cwd +:+ "./"
  else cwd +:+ "/" +:+ "./".
Proof. reflexivity. Qed.

Lemma initial_slashes_join r :
  posixpath.initial_slashes (posixpath.join (String "/" r) "./") =
  posixpath.initial_slashes (String "/" r).
Proof.
  rewrite join_dot_slash. cbn [Str.truthy negb orb].
  destruct r as [|c2 [|c3 r3]].
  - reflexivity.
  - destruct (Ascii.eqb_spec c2 "/") as [->|N]; [reflexivity|].
    replace (Str.endswith "/" (String "/" (String c2 EmptyString))) with false.
    + rewrite !append_cons.
      unfold posixpath.initial_slashes, Str.startswith. cbn [String.prefix].
      destruct (ascii_dec "/" "/"); [|contradiction].
      destruct (ascii_dec "/" c2) as [<-|_]; [contradiction|reflexivity].
    + cbn [Str.endswith String.eqb]. apply Ascii.eqb_neq in N. rewrite N.
      reflexivity.
  - destruct (Str.endswith "/" _); rewrite !append_cons;
      apply initial_slashes_cons3.
Qed.

Lemma split_join_dot_slash n cwd :
  Str.truthy cwd = true ->
  fold_left (posixpath.normpath_step n)
    (Str.split "/" (posixpath.join cwd "./")) [] =
  fold_left (posixpath.normpath_step n) (Str.split "/" cwd) [].
Proof.
  intros T. rewrite join_dot_slash, T. cbn [negb orb].
  destruct (Str.endswith "/" cwd) eqn:E.
  - destruct (endswith_slash_decompose cwd E) as (q & ->).
    rewrite append_assoc.
    change ("/" +:+ "./") with (String "/" "./").
    change (q +:+ "/") with (q +:+ String "/" EmptyString).
    rewrite !split_app_sep.
    change (Str.split "/" "./") with ["."; EmptyString].
    change (Str.split "/" EmptyString) with [EmptyString].
    now rewrite normpath_steps_dot, normpath_steps_empty.
  - change (cwd +:+ "/" +:+ "./") with (cwd +:+ String "/" "./").
    rewrite split_app_sep.
    change (Str.split "/" "./") with ["."; EmptyString].
    apply normpath_steps_dot.
Qed.

(** With the default root [./], the directory served, as the banner
    prints it, is the current directory. *)
Lemma abspath_default_root cwd :
  posixpath.isabs cwd = true ->
  posixpath.abspath cwd "./" = posixpath.normpath cwd.
Proof.
  intros A. unfold posixpath.abspath.
  change (posixpath.isabs "./") with false. cbv iota.
  destruct (startswith_slash_cons cwd A) as (r & ->).
  unfold posixpath.normpath.
  rewrite initial_slashes_join.
  rewrite (split_join_dot_slash _ (String "/" r) eq_refl).
  replace (String.eqb (posixpath.join (String "/" r) "./") EmptyString) with false.
  - reflexivity.
  - rewrite join_dot_slash. cbn [Str.truthy negb orb].
    destruct (Str.endswith "/" _); rewrite append_cons; reflexivity.
Qed.

Example abspath_default_root_example :
  posixpath.abspath "/srv/site" "./" = "/srv/site".
Proof. reflexivity. Qed.

(** ** C2: paths that try to leave the root *)

Section TranslateNames.
Context {L : Library}.

Lemma translate_words_names root words :
  Forall (fun w => Str.contains "/" w = false /\ Str.truthy w = true) words ->
  exists names,
    Forall simple_name names /\
    translate_words words root = fold_left posixpath.join names root.
Proof.
  intros Hw. revert root.
  induction Hw as [|word words [Hc Ht] _ IH]; intros root.
  - exists []. split; [constructor|reflexivity].
  - unfold translate_words in *. cbn [fold_left].
    rewrite dirname_no_sep by exact Hc. cbn [Str.truthy orb].
    destruct (String.eqb_spec word posixpath.curdir) as [|Hcur]; [apply IH|].
    destruct (String.eqb_spec word posixpath.pardir) as [|Hpar]; [apply IH|].
    cbn [orb]. destruct (IH (posixpath.join root word)) as (names & Hn & E).
    exists (word :: names). split; [|exact E].
    constructor; [|exact Hn]. repeat split; auto using truthy_nonempty.
Qed.

Lemma translate_path_names root target :
  exists names,
    Forall simple_name names /\
    (translate_path root target = fold_left posixpath.join names root \/
     translate_path root target = fold_left posixpath.join names root +:+ "/").
Proof.
  unfold translate_path.
  set (trailing := Str.endswith "/" _).
  set (decoded := match unquote_surrogatepass _ with Some p => p | None => _ end).
  fold (translate_words
          (List.filter Str.truthy (Str.split "/" (posixpath.normpath decoded))) root).
  destruct (translate_words_names root
              (List.filter Str.truthy (Str.split "/" (posixpath.normpath decoded))))
    as (names & Hn & E).
  { apply List.Forall_forall. intros word Hin.
    apply filter_In in Hin as [Hin Ht]. split; [|exact Ht].
    pose proof (split_no_sep "/" (posixpath.normpath decoded)) as F.
    rewrite List.Forall_forall in F. now apply F. }
  exists names. split; [exact Hn|]. rewrite E.
  destruct trailing; [right|left]; reflexivity.
Qed.

End TranslateNames.

(** ** The answer depends on the file system below the root only *)

Section Confinement.
Context {L : Library}.
Variable eh : handler -> handler.
Variables f1 f2 : filesystem.
Variable t : Z.










End Confinement.

(** Nothing below a root without [..] has a [..] component. *)






Example trees_differ_outside :
  open_rb Demo.tree "./../secret.txt" <>
  open_rb Demo.tree_changed_outside "./../secret.txt".
Proof. discriminate. Qed.





Example escaping_path_serves_inner_file :
  response_body
    (ThreadingHTTPServer.finish_request (L := Demo.library) "./" Demo.tree
       (1000, GET "/../secret.txt" "HTTP/1.1" [])) = "inner".
Proof. vm_compute. reflexivity. Qed.

Lemma directory_respond extra records cc lines body h :
  directory (respond extra records cc lines body h) = directory h.
Proof. reflexivity. Qed.

(** Handling a request leaves the handler's [directory] as it was set. *)
Lemma finish_request_directory {L : Library} root f c :
  directory (ThreadingHTTPServer.finish_request root f c) = root.
Proof.
  unfold ThreadingHTTPServer.finish_request.
  rewrite no_cache_handle_one_request.
  destruct (handle_one_request_shape f
              (NoCacheHandler.init root (req_command (snd c)) (req_path (snd c))
                 (req_version (snd c)) (req_headers (snd c))))
    as (body & cc & records & H).
  destruct (H (fst c)) as (lines & _ & E).
  change {| fs := f; time := fst c |} with (at_time f (fst c)).
  rewrite E. reflexivity.
Qed.

(** ** C4: the configuration *)

(** C4.  When [PORT] parses as an integer, [main] reads [PORT] and
    [ROOT_DIR] from the environment exactly once each, before anything
    else; the port is the integer value of [PORT], and of ["8000"] when
    [PORT] is unset; the root is the value of [ROOT_DIR], and [./] when
    it is unset, which is the current directory ([os.path.abspath] of it
    is the working directory); the only socket address bound is
    127.0.0.1 with that port; the root handed to the serve loop, and the
    [directory] of every handler it creates, is the root read at
    startup. *)
Theorem configuration_read_at_startup {L : Library} (int : string -> option Z)
    (p : process) (port : Z) :
  int "8000" = Some 8000 ->
  int (environ_get p "PORT" "8000") = Some port ->
  let trace := fst (main int p) in
  let root := environ_get p "ROOT_DIR" "./" in
  firstn 3 trace = [Getenv "PORT"; Getenv "ROOT_DIR"; Bind "127.0.0.1" port] /\
  count_event (is_getenv "PORT") trace = 1%nat /\
  count_event (is_getenv "ROOT_DIR") trace = 1%nat /\
  List.filter is_bind trace = [Bind "127.0.0.1" port] /\
  (forall value, environ p !! "PORT" = Some value -> int value = Some port) /\
  (environ p !! "PORT" = None -> port = 8000) /\
  (forall value, environ p !! "ROOT_DIR" = Some value -> root = value) /\
  (environ p !! "ROOT_DIR" = None -> root = "./") /\
  (environ p !! "ROOT_DIR" = None -> posixpath.isabs (getcwd p) = true ->
   posixpath.abspath (getcwd p) root = posixpath.normpath (getcwd p)) /\
  (forall served, In (ServeForever served) trace -> served = root) /\
  (forall f c, directory (ThreadingHTTPServer.finish_request root f c) = root).
Proof.
  intros Default Port trace root. subst trace.
  assert (forall value, environ p !! "PORT" = Some value -> int value = Some port)
    as Hset.
  { intros value E. unfold environ_get in Port. now rewrite E in Port. }
  assert (environ p !! "PORT" = None -> port = 8000) as Hunset.
  { intros E. unfold environ_get in Port. rewrite E, Default in Port.
    now injection Port. }
  assert (forall value, environ p !! "ROOT_DIR" = Some value -> root = value)
    as Rset.
  { intros value E. unfold root, environ_get. now rewrite E. }
  assert (environ p !! "ROOT_DIR" = None -> root = "./") as Runset.
  { intros E. unfold root, environ_get. now rewrite E. }
  assert (environ p !! "ROOT_DIR" = None -> posixpath.isabs (getcwd p) = true ->
          posixpath.abspath (getcwd p) root = posixpath.normpath (getcwd p))
    as Rcwd.
  { intros E A. rewrite (Runset E). now apply abspath_default_root. }
  unfold main. rewrite Port. fold root.
  destruct (bind_error p "127.0.0.1" port) as [e|];
    [|destruct (interrupt p) as [[]|]];
    cbn [fst app firstn];
    (repeat split; try reflexivity; try assumption;
     try apply finish_request_directory);
    intros served I; cbn [In] in I;
    repeat (destruct I as [I|I]; [try discriminate I; try (now injection I)|]);
    destruct I.
Qed.

Lemma configuration_read_at_startup_witness :
  List.filter is_bind
    (fst (main int_decimal (demo_process {["PORT" := "9000"]} None)))
  = [Bind "127.0.0.1" 9000] /\
  In (ServeForever "./")
     (fst (main int_decimal (demo_process {["PORT" := "9000"]} None))).
Proof.
  pose proof (configuration_read_at_startup (L := Demo.library) int_decimal
                (demo_process {["PORT" := "9000"]} None) 9000) as T.
  cbv zeta in T.
  destruct T as (_ & _ & _ & B & _);
    [vm_compute; reflexivity|vm_compute; reflexivity|].
  split; [exact B|]. vm_compute. right. right. right. right. left. reflexivity.
Defined.

(** ** C9: a port that is not an integer *)

(** C9.  When [PORT] is set to a string that [int] rejects, [main] ends
    with an uncaught [ValueError] right after reading [PORT]: nothing is
    bound, neither on port 8000 nor on any other, nothing is served, and
    the exit status is not zero. *)
Theorem bad_port_raises (int : string -> option Z) (p : process) (value : string) :
  environ p !! "PORT" = Some value ->
  int value = None ->
  main int p = ([Getenv "PORT"], Some (Raised ValueError)) /\
  count_event is_bind (fst (main int p)) = 0%nat /\
  count_event is_serve (fst (main int p)) = 0%nat /\
  (forall host port, ~ In (Bind host port) (fst (main int p))) /\
  exit_status (Raised ValueError) <> 0.
Proof.
  intros E V.
  assert (main int p = ([Getenv "PORT"], Some (Raised ValueError))) as M.
  { unfold main, environ_get. now rewrite E, V. }
  rewrite M. cbn [fst]. repeat split; try discriminate.
  intros host port [I|[]]. discriminate I.
Qed.

Lemma bad_port_raises_witness :
  main int_decimal (demo_process {["PORT" := "eighty"]} None)
  = ([Getenv "PORT"], Some (Raised ValueError)).
Proof.
  apply (bad_port_raises int_decimal (demo_process {["PORT" := "eighty"]} None)
           "eighty"); vm_compute; reflexivity.
Defined.

(** ** C7: interrupt *)

(** C7.  When the server is bound and serving and [serve_forever] is
    ended by [KeyboardInterrupt], [main] prints the line
    [Shutting down...], closes the listening socket, and returns
    normally, so the exit status is zero; nothing is raised. *)
Theorem interrupt_is_clean_shutdown (int : string -> option Z) (p : process)
    (port : Z) :
  int (environ_get p "PORT" "8000") = Some port ->
  bind_error p "127.0.0.1" port = None ->
  interrupt p = Some KeyboardInterrupt ->
  let root := environ_get p "ROOT_DIR" "./" in
  main int p =
    ([Getenv "PORT"; Getenv "ROOT_DIR"; Bind "127.0.0.1" port;
      Print (banner p root port); ServeForever root;
      Print (LF +:+ "Shutting down..."); ServerClose; ServerClose],
     Some Returned) /\
  exit_status Returned = 0.
Proof.
  intros Port B I root. unfold main. rewrite Port, B, I. split; reflexivity.
Qed.

Lemma interrupt_is_clean_shutdown_witness :
  snd (main int_decimal (demo_process ∅ (Some KeyboardInterrupt))) = Some Returned /\
  count_event is_close
    (fst (main int_decimal (demo_process ∅ (Some KeyboardInterrupt)))) = 2%nat.
Proof.
  pose proof (interrupt_is_clean_shutdown int_decimal
                (demo_process ∅ (Some KeyboardInterrupt)) 8000) as T.
  cbv zeta in T.
  destruct T as [M _];
    [vm_compute; reflexivity|reflexivity|reflexivity|].
  rewrite M. split; reflexivity.
Defined.

(** ** Every answer is one of five kinds *)

Section AnswerKinds.
Context {L : Library}.
Variable extra : list string.
Variable w : world.

Lemma send_head_file_answer name h :
  send_head_file (finish extra) w name h =
  let a := file_answer (fs w) name h in
  (respond extra (answer_records a) (answer_close a) (answer_lines w h a)
     (answer_page h a) h,
   answer_source w h a).
Proof.
  cbv zeta. unfold file_answer.
  destruct (Str.endswith "/" name) eqn:S.
  { rewrite (send_head_file_slash extra w name h S). reflexivity. }
  destruct (open_rb (fs w) name) as [data|] eqn:O.
  2:{ rewrite (send_head_file_unreadable extra w name h O). reflexivity. }
  destruct (not_modified data h) eqn:M.
  - rewrite (send_head_file_not_modified extra w name data h S O M). reflexivity.
  - rewrite (send_head_file_ok extra w name data h S O M). reflexivity.
Qed.

Lemma send_head_answer h :
  send_head (finish extra) w h =
  let a := head_answer (fs w) h in
  (respond extra (answer_records a) (answer_close a) (answer_lines w h a)
     (answer_page h a) h,
   answer_source w h a).
Proof.
  cbv zeta. unfold head_answer.
  destruct (isdir (fs w) (translate_path (directory h) (path h))) eqn:D.
  - destruct (Str.endswith "/" (urlsplit_path (path h))) eqn:S; cbn [negb].
    + unfold send_head. rewrite D, S. cbn [negb].
      destruct (find_index (fs w) _) as [index|]; [apply send_head_file_answer|].
      destruct (listdir (fs w) _) as [names|] eqn:Ld.
      * rewrite (list_directory_ok extra w _ names h Ld). reflexivity.
      * rewrite (list_directory_unreadable extra w _ h Ld). reflexivity.
    + rewrite (send_head_redirect extra w h D S). reflexivity.
  - unfold send_head. rewrite D. apply send_head_file_answer.
Qed.

(** The whole request, in normal form. *)
Lemma handle_one_request_answer h :
  handle_one_request (finish extra) w h =
  let a := request_answer (fs w) h in
  respond extra (answer_records a) (answer_close a) (answer_lines w h a)
    (answer_writes w h a) h.
Proof.
  cbv zeta. unfold handle_one_request, request_answer, answer_writes.
  destruct (String.eqb (command h) "GET") eqn:G; cbn [orb].
  - unfold do_GET. rewrite send_head_answer. cbv zeta.
    destruct (answer_source w h (head_answer (fs w) h)) as [source|].
    + rewrite copyfile_respond. cbn [from_option]. reflexivity.
    + cbn [from_option]. now rewrite app_nil_r.
  - destruct (String.eqb (command h) "HEAD") eqn:H.
    + unfold do_HEAD. rewrite send_head_answer. cbv zeta. cbn [fst].
      now rewrite app_nil_r.
    + rewrite (send_error_respond extra w HTTPStatus.NOT_IMPLEMENTED _
                 "Not Implemented" "Server does not support this operation"
                 h eq_refl eq_refl).
      rewrite app_nil_r. reflexivity.
Qed.

End AnswerKinds.

(** ** The answer to a fresh handler, as a client observes it *)

Lemma codes_answer_records a : codes (answer_records a) = [answer_code a].
Proof. destruct a; reflexivity. Qed.

Section FreshAnswer.
Context {L : Library}.
Variable w : world.
Variables root method target version : string.
Variable headers : list (string * string).

Local Abbreviation h0 := (NoCacheHandler.init root method target version headers).
Local Abbreviation a0 := (request_answer (fs w) h0).
Local Abbreviation served := (NoCacheHandler.handle_one_request w h0).

Lemma fresh_answer :
  served =
  respond NoCacheHandler.no_cache_lines (answer_records a0) (answer_close a0)
    (answer_lines w h0 a0) (answer_writes w h0 a0) h0.
Proof.
  rewrite no_cache_handle_one_request. apply handle_one_request_answer.
Qed.

Lemma fresh_status : status_codes served = [answer_code a0].
Proof.
  rewrite fresh_answer, status_codes_respond_init. apply codes_answer_records.
Qed.

Lemma fresh_log : log served = answer_records a0.
Proof. rewrite fresh_answer. reflexivity. Qed.

Lemma fresh_head :
  response_head served =
  if String.eqb version "HTTP/0.9" then None
  else Some (Str.join (answer_lines w h0 a0 ++ NoCacheHandler.no_cache_lines
                       ++ [CRLF])).
Proof. rewrite fresh_answer. apply response_head_respond_init. Qed.

Lemma fresh_body : response_body served = Str.join (answer_writes w h0 a0).
Proof. rewrite fresh_answer. apply response_body_respond_init. Qed.

Lemma fresh_close : close_connection served = true.
Proof.
  rewrite fresh_answer. unfold respond, upd. cbn [close_connection].
  destruct (answer_close a0) as [[]|] eqn:C; try reflexivity.
  destruct a0; discriminate C.
Qed.

End FreshAnswer.

(** ** The status of every answer *)

Section AnswerCases.
Context {L : Library}.
Variable f : filesystem.




End AnswerCases.


(** ** One request for each connection *)

Lemma answer_close_true a c : answer_close a = Some c -> c = true.
Proof. destruct a; intros [= <-] || discriminate; reflexivity. Qed.

(** A handler that is to close the connection after the request, as
    [parse_request] leaves every handler of this server, is still to
    close it after the answer, whatever [Connection] field the client
    sent: no answer switches to keep-alive, under the override as under
    the inherited [end_headers].  So a handler made for a connection
    serves one request. *)
Theorem connection_closed_after_answer {L : Library} (w : world) (h : handler) :
  close_connection h = true ->
  close_connection (NoCacheHandler.handle_one_request w h) = true /\
  close_connection (SimpleHTTPRequestHandler.handle_one_request w h) = true.
Proof.
  intros C.
  rewrite no_cache_handle_one_request, simple_handle_one_request.
  rewrite !handle_one_request_answer. cbv zeta.
  unfold respond, upd. cbn [close_connection]. rewrite C.
  destruct (answer_close (request_answer (fs w) h)) as [c|] eqn:A.
  - apply answer_close_true in A. subst c. split; reflexivity.
  - split; reflexivity.
Qed.

Lemma connection_closed_after_answer_witness :
  close_connection
    (Demo.request "GET" "HTTP/1.1" "/index.html" [("Connection", "keep-alive")])
  = true.
Proof.
  apply (connection_closed_after_answer (L := Demo.library) Demo.w
           (NoCacheHandler.init "./" "GET" "/index.html" "HTTP/1.1"
              [("Connection", "keep-alive")])).
  reflexivity.
Defined.

(** ** HEAD *)

Section HeadAndGet.
Context {L : Library}.
Variable w : world.
Variables root target version : string.
Variable headers : list (string * string).




End HeadAndGet.


(** ** The override and the inherited answer *)

Lemma respond_http09 extra records cc lines body h :
  request_version h = "HTTP/0.9" ->
  respond extra records cc lines body h = respond [] records cc lines body h.
Proof. intros V. unfold respond, is_http09. rewrite V. reflexivity. Qed.

Lemma respond_fields extra records cc lines body h :
  let r := respond extra records cc lines body h in
  directory r = directory h /\ command r = command h /\ path r = path h /\
  request_version r = request_version h /\ headers r = headers h /\
  log r = (log h ++ records)%list /\
  close_connection r = default (close_connection h) cc /\
  headers_buffer r = (if is_http09 h then headers_buffer h else []) /\
  length (wfile r) =
    (length (wfile h) + (if is_http09 h then 0 else 1) + length body)%nat.
Proof.
  cbv zeta. unfold respond, upd.
  cbn [directory command path request_version headers log close_connection
       headers_buffer wfile].
  repeat split. rewrite !length_app.
  destruct (is_http09 h); cbn [length]; lia.
Qed.

(** On an HTTP/0.9 request, one without a version on the request line,
    the override has no effect: [NoCacheHandler] leaves the handler in
    the state [SimpleHTTPRequestHandler] leaves it in.  Nothing is
    buffered and no head is written. *)
Theorem http09_override_no_effect {L : Library} (w : world) (h : handler) :
  request_version h = "HTTP/0.9" ->
  NoCacheHandler.handle_one_request w h =
    SimpleHTTPRequestHandler.handle_one_request w h /\
  headers_buffer (NoCacheHandler.handle_one_request w h) = headers_buffer h /\
  response_head (NoCacheHandler.handle_one_request w h) = None.
Proof.
  intros V.
  rewrite no_cache_handle_one_request, simple_handle_one_request.
  rewrite !handle_one_request_answer. cbv zeta.
  split; [now apply respond_http09|].
  unfold response_head, respond, upd, is_http09.
  cbn [headers_buffer request_version]. rewrite V. split; reflexivity.
Qed.

Lemma http09_override_no_effect_witness :
  NoCacheHandler.handle_one_request (L := Demo.library) Demo.w
    (NoCacheHandler.init "./" "GET" "/index.html" "HTTP/0.9" []) =
  SimpleHTTPRequestHandler.handle_one_request (L := Demo.library) Demo.w
    (NoCacheHandler.init "./" "GET" "/index.html" "HTTP/0.9" []) /\
  response_head
    (NoCacheHandler.handle_one_request (L := Demo.library) Demo.w
       (NoCacheHandler.init "./" "GET" "/index.html" "HTTP/0.9" [])) = None.
Proof.
  destruct (http09_override_no_effect (L := Demo.library) Demo.w
              (NoCacheHandler.init "./" "GET" "/index.html" "HTTP/0.9" []))
    as (E & _ & H); [reflexivity|].
  split; [exact E|exact H].
Defined.

(** The override changes the bytes of the head and nothing else: for the
    same request and the same handler state, [NoCacheHandler] and
    [SimpleHTTPRequestHandler] log the same records and status, leave the
    same [close_connection] and header buffer, make the same number of
    writes, and leave the request attributes as they were. *)
Theorem override_changes_head_only {L : Library} (w : world) (h : handler) :
  let mine := NoCacheHandler.handle_one_request w h in
  let inherited := SimpleHTTPRequestHandler.handle_one_request w h in
  log mine = log inherited /\
  status_codes mine = status_codes inherited /\
  close_connection mine = close_connection inherited /\
  headers_buffer mine = headers_buffer inherited /\
  length (wfile mine) = length (wfile inherited) /\
  (directory mine, command mine, path mine, request_version mine, headers mine) =
  (directory h, command h, path h, request_version h, headers h).
Proof.
  intros mine inherited. subst mine inherited.
  rewrite no_cache_handle_one_request, simple_handle_one_request.
  rewrite !handle_one_request_answer. cbv zeta.
  set (a := request_answer (fs w) h).
  destruct (respond_fields NoCacheHandler.no_cache_lines (answer_records a)
              (answer_close a) (answer_lines w h a) (answer_writes w h a) h)
    as (D1 & C1 & P1 & V1 & H1 & L1 & K1 & B1 & W1).
  destruct (respond_fields [] (answer_records a)
              (answer_close a) (answer_lines w h a) (answer_writes w h a) h)
    as (D2 & C2 & P2 & V2 & H2 & L2 & K2 & B2 & W2).
  unfold status_codes.
  rewrite D1, C1, P1, V1, H1, L1, K1, B1, W1, L2, K2, B2, W2.
  repeat split.
Qed.

(** ** The head: a status line, the inherited fields, the three fields *)

Lemma inherited_names_not_cache name :
  In name ["Server"; "Date"; "Location"; "Connection"; "Content-Type";
           "Content-type"; "Content-Length"; "Last-Modified"] ->
  ~ In (Str.lower name) ["cache-control"; "pragma"; "expires"].
Proof.
  intros I K. cbn [In] in I.
  repeat (destruct I as [<-|I];
          [cbn in K; repeat (destruct K as [K|K]; [discriminate K|]); exact K|]).
  exact I.
Qed.

Lemma answer_fields_names {L : Library} w h a :
  firstn 2 (map fst (answer_fields w h a)) = ["Server"; "Date"] /\
  Forall (fun field =>
            In (fst field)
               ["Server"; "Date"; "Location"; "Connection"; "Content-Type";
                "Content-type"; "Content-Length"; "Last-Modified"])
         (answer_fields w h a).
Proof.
  split; [reflexivity|].
  destruct a; unfold answer_fields; cbn [app];
    repeat (constructor; [cbn [fst In]; tauto|]); constructor.
Qed.

(** When the request has a version, the head of every answer to a
    parsed request is a status line [HTTP/1.0 code message], then header
    fields that start with [Server] and [Date] and are named [Server],
    [Date], [Location], [Connection], [Content-Type], [Content-type],
    [Content-Length] or [Last-Modified], then the three no-cache fields,
    then the blank line.  So no inherited field is named [Cache-Control],
    [Pragma] or [Expires], in any case of letters: each of the three
    occurs once. *)
Theorem head_is_status_fields_no_cache {L : Library} (w : world)
    (root method target version : string) (headers : list (string * string)) :
  let served := NoCacheHandler.handle_one_request w
                  (NoCacheHandler.init root method target version headers) in
  exists code message fields,
    status_codes served = [code] /\
    response_head served =
      (if String.eqb version "HTTP/0.9" then None
       else Some (Str.join
                    (status_line code message
                     :: map (fun field => header_line (fst field) (snd field)) fields
                     ++ NoCacheHandler.no_cache_lines ++ [CRLF]))) /\
    firstn 2 (map fst fields) = ["Server"; "Date"] /\
    Forall (fun field =>
              In (fst field)
                 ["Server"; "Date"; "Location"; "Connection"; "Content-Type";
                  "Content-type"; "Content-Length"; "Last-Modified"]) fields /\
    Forall (fun field =>
              ~ In (Str.lower (fst field)) ["cache-control"; "pragma"; "expires"])
           fields.
Proof.
  intros served. subst served.
  set (h0 := NoCacheHandler.init root method target version headers).
  exists (answer_code (request_answer (fs w) h0)),
         (answer_message (request_answer (fs w) h0)),
         (answer_fields w h0 (request_answer (fs w) h0)).
  subst h0. rewrite fresh_status, fresh_head.
  destruct (answer_fields_names w
              (NoCacheHandler.init root method target version headers)
              (request_answer (fs w)
                 (NoCacheHandler.init root method target version headers)))
    as [N F].
  repeat split; try assumption.
  eapply Forall_impl; [exact F|].
  intros field. apply inherited_names_not_cache.
Qed.

(** ** [Content-Length] *)

Section Body.
Context {L : Library}.
Variable f : filesystem.

Lemma file_answer_document name h n data :
  file_answer f name h = Document n data -> open_rb f n = Some data.
Proof.
  unfold file_answer.
  destruct (Str.endswith "/" name); [discriminate|].
  destruct (open_rb f name) as [file|] eqn:O; [|discriminate].
  destruct (not_modified file h); [discriminate|].
  intros [= <- <-]. exact O.
Qed.

Lemma head_answer_document h n data :
  head_answer f h = Document n data -> open_rb f n = Some data.
Proof.
  unfold head_answer. cbv zeta.
  destruct (isdir f _); [|apply file_answer_document].
  destruct (negb _); [discriminate|].
  destruct (find_index f _); [apply file_answer_document|].
  destruct (listdir f _); discriminate.
Qed.

Lemma request_answer_document h n data :
  request_answer f h = Document n data -> open_rb f n = Some data.
Proof.
  unfold request_answer.
  destruct (_ || _); [apply head_answer_document|discriminate].
Qed.

End Body.

(** What [GET] writes after the head, in one piece. *)
Lemma get_writes_join {L : Library} w h a :
  command h = "GET" -> Str.join (answer_writes w h a) = answer_body w h a.
Proof.
  intros G. unfold answer_writes, answer_page. rewrite G.
  change (String.eqb "GET" "GET") with true.
  change (String.eqb "GET" "HEAD") with false. cbn [negb andb].
  destruct a as [| |name data|dir names|code message explain];
    cbn [answer_source from_option answer_body app]; try reflexivity.
  - apply copyfileobj_join.
  - apply copyfileobj_join.
  - rewrite app_nil_r.
    destruct (error_body code message explain) eqn:B; reflexivity.
Qed.

(** In the answer to a GET request, the value of [Content-Length] is the
    number of bytes of the body that follows, for every kind of answer
    that carries the field (all but 304), provided that [os.fstat]
    reports the length of each file that can be opened. *)
Theorem content_length_is_body_length {L : Library} (f : filesystem) (t : Z)
    (root target version : string) (headers : list (string * string)) :
  (forall name data, open_rb f name = Some data ->
     st_size data = Z.of_nat (String.length (content data))) ->
  let served :=
    ThreadingHTTPServer.finish_request root f (t, GET target version headers) in
  exists code message fields,
    status_codes served = [code] /\
    response_head served =
      (if String.eqb version "HTTP/0.9" then None
       else Some (Str.join
                    (status_line code message
                     :: map (fun field => header_line (fst field) (snd field)) fields
                     ++ NoCacheHandler.no_cache_lines ++ [CRLF]))) /\
    (code <> HTTPStatus.NOT_MODIFIED ->
     exists value, In ("Content-Length", value) fields) /\
    (forall value, In ("Content-Length", value) fields ->
       value = Str.of_Z (Z.of_nat (String.length (response_body served)))).
Proof.
  intros Size served. subst served.
  change (ThreadingHTTPServer.finish_request root f (t, GET target version headers))
    with (NoCacheHandler.handle_one_request (at_time f t)
            (NoCacheHandler.init root "GET" target version headers)).
  set (h0 := NoCacheHandler.init root "GET" target version headers).
  exists (answer_code (request_answer f h0)),
         (answer_message (request_answer f h0)),
         (answer_fields (at_time f t) h0 (request_answer f h0)).
  subst h0. rewrite fresh_status, fresh_head, fresh_body.
  rewrite get_writes_join by reflexivity.
  cbn [fs at_time].
  split; [reflexivity|]. split; [reflexivity|].
  pose proof (request_answer_document f
                (NoCacheHandler.init root "GET" target version headers)) as Doc.
  destruct (request_answer f _) as [| |name data|dir names|code message explain];
    unfold answer_fields; cbn [app answer_code answer_body In].
  - split; [intros _; eexists; right; right; right; left; reflexivity|].
    intros value I.
    repeat (destruct I as [I|I]; [try discriminate I|]); [|destruct I].
    injection I as <-. reflexivity.
  - split; [intros N; now contradiction N|].
    intros value I.
    repeat (destruct I as [I|I]; [discriminate I|]). destruct I.
  - split; [intros _; eexists; right; right; right; left; reflexivity|].
    intros value I.
    repeat (destruct I as [I|I]; [try discriminate I|]); [|destruct I].
    injection I as <-. now rewrite (Size name data (Doc name data eq_refl)).
  - split; [intros _; eexists; right; right; right; left; reflexivity|].
    intros value I.
    repeat (destruct I as [I|I]; [try discriminate I|]); [|destruct I].
    injection I as <-. reflexivity.
  - split; [intros _; eexists; right; right; right; right; left; reflexivity|].
    intros value I.
    repeat (destruct I as [I|I]; [try discriminate I|]); [|destruct I].
    injection I as <-. reflexivity.
Qed.

Lemma demo_sizes name data :
  open_rb Demo.tree name = Some data ->
  st_size data = Z.of_nat (String.length (content data)).
Proof.
  unfold open_rb, Demo.tree.
  repeat (destruct (String.eqb name _); [intros [= <-]; reflexivity|]).
  discriminate.
Qed.

Lemma content_length_is_body_length_witness :
  exists code message fields,
    status_codes
      (ThreadingHTTPServer.finish_request (L := Demo.library) "./" Demo.tree
         (1000, GET "/index.html" "HTTP/1.1" [])) = [code] /\
    response_head
      (ThreadingHTTPServer.finish_request (L := Demo.library) "./" Demo.tree
         (1000, GET "/index.html" "HTTP/1.1" [])) =
      Some (Str.join
              (status_line code message
               :: map (fun field => header_line (fst field) (snd field)) fields
               ++ NoCacheHandler.no_cache_lines ++ [CRLF])) /\
    (code <> HTTPStatus.NOT_MODIFIED ->
     exists value, In ("Content-Length", value) fields) /\
    (forall value, In ("Content-Length", value) fields ->
       value =
       Str.of_Z (Z.of_nat (String.length
         (response_body
            (ThreadingHTTPServer.finish_request (L := Demo.library) "./" Demo.tree
               (1000, GET "/index.html" "HTTP/1.1" [])))))).
Proof.
  apply (content_length_is_body_length (L := Demo.library) Demo.tree 1000
           "./" "/index.html" "HTTP/1.1" []).
  exact demo_sizes.
Defined.

(** ** The branches of [send_head] *)

Section Branches.
Context {L : Library}.
Variable w : world.
Variables root method target version : string.
Variable headers : list (string * string).
Hypothesis M : method = "GET" \/ method = "HEAD".

Local Abbreviation h0 := (NoCacheHandler.init root method target version headers).

Lemma request_answer_head : request_answer (fs w) h0 = head_answer (fs w) h0.
Proof.
  unfold request_answer.
  change (command h0) with method.
  destruct M as [-> | ->]; reflexivity.
Qed.

Lemma request_answer_moved :
  isdir (fs w) (translate_path root target) = true ->
  Str.endswith "/" (urlsplit_path target) = false ->
  request_answer (fs w) h0 = Moved.
Proof.
  intros D S. rewrite request_answer_head. unfold head_answer.
  change (directory h0) with root. change (path h0) with target.
  cbv zeta. now rewrite D, S.
Qed.

Lemma request_answer_slash :
  isdir (fs w) (translate_path root target) = false ->
  Str.endswith "/" (translate_path root target) = true ->
  request_answer (fs w) h0 =
  Failed HTTPStatus.NOT_FOUND "File not found" "Nothing matches the given URI".
Proof.
  intros D S. rewrite request_answer_head. unfold head_answer.
  change (directory h0) with root. change (path h0) with target.
  cbv zeta. rewrite D. unfold file_answer. now rewrite S.
Qed.

Lemma request_answer_unlistable :
  isdir (fs w) (translate_path root target) = true ->
  Str.endswith "/" (urlsplit_path target) = true ->
  find_index (fs w) (translate_path root target) = None ->
  listdir (fs w) (translate_path root target) = None ->
  request_answer (fs w) h0 =
  Failed HTTPStatus.NOT_FOUND "No permission to list directory"
    "Nothing matches the given URI".
Proof.
  intros D S F Ld. rewrite request_answer_head. unfold head_answer.
  change (directory h0) with root. change (path h0) with target.
  cbv zeta. now rewrite D, S, F, Ld.
Qed.

Lemma answer_writes_nothing a :
  answer_page h0 a = [] -> answer_source w h0 a = None ->
  answer_writes w h0 a = [].
Proof.
  intros P S. unfold answer_writes. rewrite P, S.
  destruct (String.eqb (command h0) "GET"); reflexivity.
Qed.

End Branches.

Lemma trailing_slash_kept {L : Library} root target :
  Str.endswith "/" (Str.rstrip (Str.before "#" (Str.before "?" target))) = true ->
  Str.endswith "/" (translate_path root target) = true.
Proof.
  intros T. unfold translate_path. rewrite T.
  now rewrite endswith_slash_app.
Qed.

(** A GET or HEAD request for a directory whose URL path does not end in
    a slash is redirected: status 301, a [Location] field with the slash
    added, [Content-Length: 0], the three no-cache fields, and no body.
    The directory is neither listed nor searched for an index file. *)
Theorem directory_without_slash_redirects {L : Library} (w : world)
    (root method target version : string) (headers : list (string * string)) :
  method = "GET" \/ method = "HEAD" ->
  isdir (fs w) (translate_path root target) = true ->
  Str.endswith "/" (urlsplit_path target) = false ->
  let served := NoCacheHandler.handle_one_request w
                  (NoCacheHandler.init root method target version headers) in
  status_codes served = [HTTPStatus.MOVED_PERMANENTLY] /\
  log served = [log_request HTTPStatus.MOVED_PERMANENTLY] /\
  response_head served =
    (if String.eqb version "HTTP/0.9" then None
     else Some (Str.join
                  ([ status_line HTTPStatus.MOVED_PERMANENTLY "Moved Permanently";
                     header_line "Server" version_string;
                     header_line "Date" (date_time_string (time w));
                     header_line "Location" (urlunsplit_slash target);
                     header_line "Content-Length" "0" ]
                   ++ NoCacheHandler.no_cache_lines ++ [CRLF]))) /\
  response_body served = EmptyString.
Proof.
  intros M D S served. subst served.
  rewrite fresh_status, fresh_log, fresh_head, fresh_body.
  rewrite (request_answer_moved w root method target version headers M D S).
  rewrite answer_writes_nothing by reflexivity.
  repeat split.
Qed.

Lemma directory_without_slash_redirects_witness :
  status_codes (Demo.request "GET" "HTTP/1.1" "/docs" []) = [301] /\
  response_body (Demo.request "GET" "HTTP/1.1" "/docs" []) = EmptyString.
Proof.
  pose proof (directory_without_slash_redirects (L := Demo.library) Demo.w
                "./" "GET" "/docs" "HTTP/1.1" []) as T.
  cbv zeta in T.
  destruct T as (S & _ & _ & B); [left; reflexivity|reflexivity|reflexivity|].
  split; [exact S|exact B].
Defined.

(** A GET or HEAD request whose path ends in a slash (before any query
    or fragment) and does not resolve to a directory is answered 404
    [File not found], also when a file of that name exists and can be
    read: the file is not opened. *)
Theorem file_with_trailing_slash_not_found {L : Library} (w : world)
    (root method target version : string) (headers : list (string * string)) :
  method = "GET" \/ method = "HEAD" ->
  Str.endswith "/" (Str.rstrip (Str.before "#" (Str.before "?" target))) = true ->
  isdir (fs w) (translate_path root target) = false ->
  let served := NoCacheHandler.handle_one_request w
                  (NoCacheHandler.init root method target version headers) in
  status_codes served = [HTTPStatus.NOT_FOUND] /\
  log served = [log_error HTTPStatus.NOT_FOUND "File not found";
                log_request HTTPStatus.NOT_FOUND] /\
  response_head served =
    (if String.eqb version "HTTP/0.9" then None
     else Some (Str.join
                  (error_lines w HTTPStatus.NOT_FOUND "File not found"
                     "Nothing matches the given URI"
                   ++ NoCacheHandler.no_cache_lines ++ [CRLF]))).
Proof.
  intros M T D served. subst served.
  rewrite fresh_status, fresh_log, fresh_head.
  rewrite (request_answer_slash w root method target version headers M D
             (trailing_slash_kept root target T)).
  repeat split.
Qed.

(** A GET or HEAD request for a directory that holds no index file and
    that [os.listdir] cannot read is answered 404 with the reason
    [No permission to list directory], not 403. *)
Theorem unlistable_directory_not_found {L : Library} (w : world)
    (root method target version : string) (headers : list (string * string)) :
  method = "GET" \/ method = "HEAD" ->
  isdir (fs w) (translate_path root target) = true ->
  Str.endswith "/" (urlsplit_path target) = true ->
  find_index (fs w) (translate_path root target) = None ->
  listdir (fs w) (translate_path root target) = None ->
  let served := NoCacheHandler.handle_one_request w
                  (NoCacheHandler.init root method target version headers) in
  status_codes served = [HTTPStatus.NOT_FOUND] /\
  log served = [log_error HTTPStatus.NOT_FOUND "No permission to list directory";
                log_request HTTPStatus.NOT_FOUND] /\
  response_head served =
    (if String.eqb version "HTTP/0.9" then None
     else Some (Str.join
                  (error_lines w HTTPStatus.NOT_FOUND
                     "No permission to list directory"
                     "Nothing matches the given URI"
                   ++ NoCacheHandler.no_cache_lines ++ [CRLF]))).
Proof.
  intros M D S F Ld served. subst served.
  rewrite fresh_status, fresh_log, fresh_head.
  rewrite (request_answer_unlistable w root method target version headers M D S F Ld).
  repeat split.
Qed.

Lemma file_with_trailing_slash_not_found_witness :
  open_rb Demo.tree "./index.html" = Some (Demo.regular "hello") /\
  status_codes (Demo.request "GET" "HTTP/1.1" "/index.html/" []) = [404].
Proof.
  split; [reflexivity|].
  pose proof (file_with_trailing_slash_not_found (L := Demo.library) Demo.w
                "./" "GET" "/index.html/" "HTTP/1.1" []) as T.
  cbv zeta in T.
  destruct T as (S & _); [left; reflexivity|reflexivity|reflexivity|].
  exact S.
Defined.

Lemma unlistable_directory_not_found_witness :
  status_codes
    (NoCacheHandler.handle_one_request (L := Demo.library)
       (at_time small_tree 1000)
       (NoCacheHandler.init "./" "GET" "/vault/" "HTTP/1.1" [])) = [404].
Proof.
  pose proof (unlistable_directory_not_found (L := Demo.library)
                (at_time small_tree 1000) "./" "GET" "/vault/" "HTTP/1.1" [])
    as T.
  cbv zeta in T.
  destruct T as (S & _);
    [left; reflexivity|reflexivity|reflexivity|reflexivity|reflexivity|].
  exact S.
Defined.

(** ** Conditional requests *)

Section Conditional.
Context {L : Library}.
Variable f : filesystem.




End Conditional.



(** ** What the answer depends on *)

Section Agreement.
Context {L : Library}.
Variable f : filesystem.
Variables h1 h2 : handler.
Hypothesis C : command h1 = command h2.
Hypothesis N : forall data, not_modified data h1 = not_modified data h2.

Lemma file_answer_agree name : file_answer f name h1 = file_answer f name h2.
Proof.
  unfold file_answer.
  destruct (Str.endswith "/" name); [reflexivity|].
  destruct (open_rb f name) as [data|]; [|reflexivity].
  now rewrite N.
Qed.

Lemma file_answer_pathless name : pathless (file_answer f name h1).
Proof.
  unfold file_answer.
  destruct (Str.endswith "/" name); [exact I|].
  destruct (open_rb f name) as [data|]; [|exact I].
  destruct (not_modified data h1); exact I.
Qed.

Lemma head_answer_agree :
  directory h1 = directory h2 -> path h1 = path h2 ->
  head_answer f h1 = head_answer f h2.
Proof.
  intros D P. unfold head_answer. rewrite D, P. cbv zeta.
  destruct (isdir f _); [|apply file_answer_agree].
  destruct (negb _); [reflexivity|].
  destruct (find_index f _); [apply file_answer_agree|reflexivity].
Qed.

Lemma request_answer_agree :
  directory h1 = directory h2 -> path h1 = path h2 ->
  request_answer f h1 = request_answer f h2.
Proof.
  intros D P. unfold request_answer. rewrite C, (head_answer_agree D P).
  reflexivity.
Qed.

(** Two paths that resolve to the same file that is not a directory. *)
Lemma request_answer_same_file :
  directory h1 = directory h2 ->
  translate_path (directory h1) (path h1) = translate_path (directory h2) (path h2) ->
  isdir f (translate_path (directory h1) (path h1)) = false ->
  request_answer f h1 = request_answer f h2 /\ pathless (request_answer f h1).
Proof.
  intros D T Dir. unfold request_answer. rewrite <- C.
  destruct (_ || _); [|split; [reflexivity|exact I]].
  unfold head_answer. cbv zeta. rewrite <- T, Dir.
  split; [apply file_answer_agree|apply file_answer_pathless].
Qed.

Lemma answer_lines_agree w a :
  path h1 = path h2 -> answer_lines w h1 a = answer_lines w h2 a.
Proof.
  intros P. unfold answer_lines, answer_fields, listing. now rewrite P.
Qed.

Lemma answer_lines_pathless w a :
  pathless a -> answer_lines w h1 a = answer_lines w h2 a.
Proof. destruct a; (contradiction || reflexivity). Qed.

Lemma answer_writes_agree w a :
  path h1 = path h2 -> answer_writes w h1 a = answer_writes w h2 a.
Proof.
  intros P. unfold answer_writes, answer_page, answer_source, listing.
  now rewrite C, P.
Qed.

Lemma answer_writes_pathless w a :
  pathless a -> answer_writes w h1 a = answer_writes w h2 a.
Proof.
  intros Pl. unfold answer_writes, answer_page. rewrite C.
  destruct a; (contradiction || reflexivity).
Qed.

End Agreement.

(** Once the request is parsed, the answer depends on its header fields
    through [If-Modified-Since] and [If-None-Match] only: two requests
    that agree on these get the same bytes, the same log records and the
    same [close_connection].  [Range], [Accept-Encoding], [Connection]
    and every other field are ignored. *)
Theorem other_request_headers_ignored {L : Library} (w : world)
    (root method target version : string) (sent1 sent2 : list (string * string)) :
  headers_contains "If-Modified-Since" sent1 =
    headers_contains "If-Modified-Since" sent2 ->
  headers_get "If-Modified-Since" sent1 = headers_get "If-Modified-Since" sent2 ->
  headers_contains "If-None-Match" sent1 = headers_contains "If-None-Match" sent2 ->
  let first := NoCacheHandler.handle_one_request w
                 (NoCacheHandler.init root method target version sent1) in
  let second := NoCacheHandler.handle_one_request w
                  (NoCacheHandler.init root method target version sent2) in
  wfile first = wfile second /\
  log first = log second /\
  close_connection first = close_connection second.
Proof.
  intros I G E first second. subst first second.
  rewrite !fresh_close, !fresh_log.
  rewrite !fresh_answer, !wfile_respond_init.
  assert (forall data,
            not_modified data (NoCacheHandler.init root method target version sent1) =
            not_modified data (NoCacheHandler.init root method target version sent2))
    as N.
  { intros data. unfold not_modified.
    cbn [headers NoCacheHandler.init]. now rewrite I, G, E. }
  rewrite (request_answer_agree (fs w)
             (NoCacheHandler.init root method target version sent1)
             (NoCacheHandler.init root method target version sent2)
             eq_refl N eq_refl eq_refl).
  rewrite (answer_lines_agree
             (NoCacheHandler.init root method target version sent1)
             (NoCacheHandler.init root method target version sent2)
             w _ eq_refl).
  rewrite (answer_writes_agree
             (NoCacheHandler.init root method target version sent1)
             (NoCacheHandler.init root method target version sent2)
             eq_refl w _ eq_refl).
  repeat split.
Qed.

Lemma other_request_headers_ignored_witness :
  wfile (Demo.request "GET" "HTTP/1.1" "/index.html"
           [("Range", "bytes=0-1"); ("Connection", "keep-alive")]) =
  wfile (Demo.request "GET" "HTTP/1.1" "/index.html" []).
Proof.
  pose proof (other_request_headers_ignored (L := Demo.library) Demo.w
                "./" "GET" "/index.html" "HTTP/1.1"
                [("Range", "bytes=0-1"); ("Connection", "keep-alive")] []) as T.
  cbv zeta in T.
  destruct T as (W & _); [reflexivity|reflexivity|reflexivity|].
  exact W.
Defined.

(** ** Query strings and fragments *)

(** Two request paths that are equal up to the first [?] and, before
    it, the first [#] resolve to the same file system path; when that
    path is not a directory the two requests get the same bytes and the
    same log records.  A query string or a fragment never selects
    another file. *)
Theorem query_and_fragment_ignored {L : Library} (w : world)
    (root method target1 target2 version : string)
    (sent : list (string * string)) :
  Str.before "#" (Str.before "?" target1) = Str.before "#" (Str.before "?" target2) ->
  isdir (fs w) (translate_path root target1) = false ->
  let first := NoCacheHandler.handle_one_request w
                 (NoCacheHandler.init root method target1 version sent) in
  let second := NoCacheHandler.handle_one_request w
                  (NoCacheHandler.init root method target2 version sent) in
  translate_path root target1 = translate_path root target2 /\
  wfile first = wfile second /\
  status_codes first = status_codes second.
Proof.
  intros B D first second. subst first second.
  assert (translate_path root target1 = translate_path root target2) as T.
  { unfold translate_path. now rewrite B. }
  split; [exact T|].
  rewrite !fresh_status.
  rewrite !fresh_answer, !wfile_respond_init.
  destruct (request_answer_same_file (fs w)
              (NoCacheHandler.init root method target1 version sent)
              (NoCacheHandler.init root method target2 version sent)
              eq_refl (fun _ => eq_refl) eq_refl T D) as [A Pl].
  rewrite <- A.
  rewrite (answer_lines_pathless
             (NoCacheHandler.init root method target1 version sent)
             (NoCacheHandler.init root method target2 version sent) w _ Pl).
  rewrite (answer_writes_pathless
             (NoCacheHandler.init root method target1 version sent)
             (NoCacheHandler.init root method target2 version sent)
             eq_refl w _ Pl).
  split; reflexivity.
Qed.

Lemma query_and_fragment_ignored_witness :
  translate_path (L := Demo.library) "./" "/index.html?v=2#top" = "./index.html" /\
  wfile (Demo.request "GET" "HTTP/1.1" "/index.html?v=2#top" []) =
  wfile (Demo.request "GET" "HTTP/1.1" "/index.html" []).
Proof.
  pose proof (query_and_fragment_ignored (L := Demo.library) Demo.w
                "./" "GET" "/index.html?v=2#top" "/index.html" "HTTP/1.1" []) as T.
  cbv zeta in T.
  destruct T as (P & W & _); [reflexivity|reflexivity|].
  split; [reflexivity|exact W].
Defined.

(** ** [main]: failures and the end of the run *)

(** When the socket cannot be bound or activated (address in use, port
    out of range, no permission), [main] closes the socket and the
    exception leaves [main]: nothing is printed, nothing is served, and
    the exit status is not zero. *)
Theorem bind_failure_propagates (int : string -> option Z) (p : process)
    (port : Z) (e : exn) :
  int (environ_get p "PORT" "8000") = Some port ->
  bind_error p "127.0.0.1" port = Some e ->
  main int p =
    ([Getenv "PORT"; Getenv "ROOT_DIR"; Bind "127.0.0.1" port; ServerClose],
     Some (Raised e)) /\
  count_event is_serve (fst (main int p)) = 0%nat /\
  (forall text, ~ In (Print text) (fst (main int p))) /\
  exit_status (Raised e) <> 0.
Proof.
  intros Port B.
  assert (main int p =
          ([Getenv "PORT"; Getenv "ROOT_DIR"; Bind "127.0.0.1" port; ServerClose],
           Some (Raised e))) as M.
  { unfold main. now rewrite Port, B. }
  rewrite M. cbn [fst]. repeat split; try discriminate.
  intros text I. cbn [In] in I.
  repeat (destruct I as [I|I]; [discriminate I|]). exact I.
Qed.

Lemma bind_failure_propagates_witness :
  main int_decimal busy_process =
    ([Getenv "PORT"; Getenv "ROOT_DIR"; Bind "127.0.0.1" 8000; ServerClose],
     Some (Raised OSError)).
Proof.
  apply (bind_failure_propagates int_decimal busy_process 8000 OSError);
    vm_compute; reflexivity.
Defined.

(** When [serve_forever] ends with an exception other than
    [KeyboardInterrupt], [main] closes the socket, prints no shutdown
    line, and the exception leaves [main] with a non-zero exit status. *)
Theorem serving_error_propagates (int : string -> option Z) (p : process)
    (port : Z) (e : exn) :
  int (environ_get p "PORT" "8000") = Some port ->
  bind_error p "127.0.0.1" port = None ->
  interrupt p = Some e ->
  e <> KeyboardInterrupt ->
  let root := environ_get p "ROOT_DIR" "./" in
  main int p =
    ([Getenv "PORT"; Getenv "ROOT_DIR"; Bind "127.0.0.1" port;
      Print (banner p root port); ServeForever root; ServerClose; ServerClose],
     Some (Raised e)) /\
  ~ In (Print shutdown_line) (fst (main int p)) /\
  exit_status (Raised e) <> 0.
Proof.
  intros Port B I K root.
  assert (main int p =
          ([Getenv "PORT"; Getenv "ROOT_DIR"; Bind "127.0.0.1" port;
            Print (banner p root port); ServeForever root; ServerClose;
            ServerClose],
           Some (Raised e))) as M.
  { unfold main. rewrite Port, B, I. destruct e; try reflexivity.
    now contradiction K. }
  rewrite M. cbn [fst]. repeat split; try discriminate.
  intros In1. cbn [In] in In1.
  repeat (destruct In1 as [In1|In1]; [discriminate In1|]). exact In1.
Qed.

Lemma serving_error_propagates_witness :
  snd (main int_decimal (demo_process ∅ (Some OSError))) = Some (Raised OSError) /\
  count_event is_close
    (fst (main int_decimal (demo_process ∅ (Some OSError)))) = 2%nat.
Proof.
  pose proof (serving_error_propagates int_decimal
                (demo_process ∅ (Some OSError)) 8000 OSError) as T.
  cbv zeta in T.
  destruct T as (M & _);
    [vm_compute; reflexivity|reflexivity|reflexivity|discriminate|].
  rewrite M. split; reflexivity.
Defined.

Ltac not_in_trace :=
  let I := fresh "I" in
  intros I; cbn [In app] in I;
  repeat (destruct I as [I|I]; [discriminate I|]); destruct I.

(** Every run of [main]: it returns normally, with exit status 0, in one
    case only, a server that was bound and then interrupted by
    [KeyboardInterrupt], and this is also the only case in which the
    shutdown line is printed; it does not end exactly when the server was
    bound and nothing interrupts it; nothing is served without a socket
    bound before; and whenever [main] ends after binding, the socket has
    been closed. *)
Theorem main_ends_cleanly_or_raises (int : string -> option Z) (p : process) :
  let trace := fst (main int p) in
  let out := snd (main int p) in
  let started :=
    exists port, int (environ_get p "PORT" "8000") = Some port /\
                 bind_error p "127.0.0.1" port = None in
  (out = Some Returned <-> started /\ interrupt p = Some KeyboardInterrupt) /\
  (In (Print shutdown_line) trace <-> out = Some Returned) /\
  (out = None <-> started /\ interrupt p = None) /\
  (count_event is_bind trace <= 1)%nat /\
  (count_event is_serve trace <= count_event is_bind trace)%nat /\
  (count_event is_serve trace = 1%nat <-> started) /\
  (out <> None -> (count_event is_bind trace <= count_event is_close trace)%nat).
Proof.
  intros trace out started. subst trace out started. unfold main.
  destruct (int (environ_get p "PORT" "8000")) as [port|] eqn:Port.
  2:{ assert (~ exists port : Z, None = Some port /\
                                 bind_error p "127.0.0.1" port = None) as S
        by (intros (port & E & _); discriminate E).
      cbn [fst snd].
      split; [split; [discriminate|tauto]|].
      split; [split; [not_in_trace|discriminate]|].
      split; [split; [discriminate|tauto]|].
      split; [cbn; lia|]. split; [cbn; lia|].
      split; [split; [discriminate|tauto]|].
      intros _. cbn. lia. }
  destruct (bind_error p "127.0.0.1" port) as [e|] eqn:B.
  { assert (~ exists port' : Z, Some port = Some port' /\
                                bind_error p "127.0.0.1" port' = None) as S.
    { intros (port' & E & B'). injection E as <-. rewrite B in B'.
      discriminate B'. }
    cbn [fst snd].
    split; [split; [discriminate|tauto]|].
    split; [split; [not_in_trace|discriminate]|].
    split; [split; [discriminate|tauto]|].
    split; [cbn; lia|]. split; [cbn; lia|].
    split; [split; [discriminate|tauto]|].
    intros _. cbn. lia. }
  assert (exists port', Some port = Some port' /\
                        bind_error p "127.0.0.1" port' = None) as S
    by (exists port; split; [reflexivity|exact B]).
  destruct (interrupt p) as [[| | | |name]|] eqn:Int.
  4:{ cbn [fst snd].
      split; [tauto|].
      split; [split; [reflexivity|]|].
      { intros _. cbn [In app]. unfold shutdown_line. tauto. }
      split; [split; [discriminate|intros [_ N]; discriminate N]|].
      split; [cbn; lia|]. split; [cbn; lia|].
      split; [split; [intros _; exact S|reflexivity]|].
      intros _. cbn. lia. }
  5:{ cbn [fst snd].
      split; [split; [discriminate|intros [_ N]; discriminate N]|].
      split; [split; [not_in_trace|discriminate]|].
      split; [tauto|].
      split; [cbn; lia|]. split; [cbn; lia|].
      split; [split; [intros _; exact S|reflexivity]|].
      intros N. now contradiction N. }
  all: cbn [fst snd];
    (split; [split; [discriminate|intros [_ N]; discriminate N]|]);
    (split; [split; [not_in_trace|discriminate]|]);
    (split; [split; [discriminate|intros [_ N]; discriminate N]|]);
    (split; [cbn; lia|]); (split; [cbn; lia|]);
    (split; [split; [intros _; exact S|reflexivity]|]);
    intros _; cbn; lia.
Qed.

(** ** An empty root directory *)

Lemma simple_name_head name :
  simple_name name -> exists a rest, name = String a rest /\ a <> "/"%char.
Proof.
  intros (Hne & Hc & _). destruct name as [|a rest]; [done|].
  exists a, rest. split; [reflexivity|].
  cbn [Str.contains] in Hc. apply orb_false_iff in Hc as [Ha _].
  now apply Ascii.eqb_neq in Ha.
Qed.

Lemma fold_join_prefix names p :
  Forall simple_name names ->
  exists s, fold_left posixpath.join names p = p +:+ s.
Proof.
  intros F. revert p. induction F as [|name names N _ IH]; intros p.
  - exists EmptyString. cbn [fold_left]. now rewrite append_empty_r.
  - cbn [fold_left]. destruct (IH (posixpath.join p name)) as (s & ->).
    destruct (join_simple_name p name N) as [-> | ->].
    + exists (name +:+ s). now rewrite append_assoc.
    + exists ("/" +:+ name +:+ s). now rewrite !append_assoc.
Qed.

Lemma isabs_cons a s : a <> "/"%char -> posixpath.isabs (String a s) = false.
Proof.
  intros N. unfold posixpath.isabs, Str.startswith. cbn [String.prefix].
  destruct (ascii_dec "/" a) as [<-|_]; [contradiction|reflexivity].
Qed.

Lemma fold_join_empty_root names :
  Forall simple_name names ->
  names = [] \/
  exists a s, a <> "/"%char /\ fold_left posixpath.join names EmptyString = String a s.
Proof.
  intros F. destruct F as [|name names N F]; [now left|]. right.
  cbn [fold_left].
  destruct (fold_join_prefix names (posixpath.join EmptyString name) F) as (s & ->).
  destruct (simple_name_head name N) as (a & rest & -> & Na).
  exists a. unfold posixpath.join.
  rewrite (isabs_cons a rest Na : Str.startswith "/" (String a rest) = false).
  cbn [Str.truthy negb orb].
  change (EmptyString +:+ String a rest) with (String a rest).
  rewrite append_cons. eexists. split; [exact Na|reflexivity].
Qed.

(** With an empty root directory ([ROOT_DIR] set to the empty string)
    a request path resolves to a path relative to the working directory,
    with one exception: the only absolute path it can resolve to is [/],
    the root of the file system.  That is the case of the request path
    [/]. *)
Theorem empty_root_resolves_relative_or_slash {L : Library} (target : string) :
  posixpath.isabs (translate_path EmptyString target) = true ->
  translate_path EmptyString target = "/".
Proof.
  destruct (translate_path_names EmptyString target) as (names & F & [E|E]);
    rewrite E; destruct (fold_join_empty_root names F) as [->|(a & s & Na & ->)].
  - discriminate.
  - now rewrite isabs_cons.
  - reflexivity.
  - rewrite append_cons. now rewrite isabs_cons.
Qed.

Lemma empty_root_resolves_relative_or_slash_witness :
  translate_path (L := Demo.library) EmptyString "/" = "/" /\
  translate_path (L := Demo.library) EmptyString "/index.html" = "index.html".
Proof.
  split; [|reflexivity].
  apply (empty_root_resolves_relative_or_slash (L := Demo.library) "/").
  reflexivity.
Defined.

(** ** The order of a directory listing *)

Lemma leb_refl s : String.leb s s = true.
Proof. now destruct (String.leb_total s s). Qed.

Lemma insert_by_lower_perm a l : Permutation (insert_by_lower a l) (a :: l).
Proof.
  induction l as [|b l IH]; cbn [insert_by_lower]; [reflexivity|].
  destruct (String.leb _ _); [reflexivity|].
  rewrite IH. apply perm_swap.
Qed.

Lemma insert_by_lower_hd a b l :
  String.leb (Str.lower b) (Str.lower a) = true ->
  HdRel (fun x y => String.leb (Str.lower x) (Str.lower y) = true) b l ->
  HdRel (fun x y => String.leb (Str.lower x) (Str.lower y) = true) b
    (insert_by_lower a l).
Proof.
  intros Hba H. destruct l as [|c l]; cbn [insert_by_lower].
  - now constructor.
  - destruct (String.leb (Str.lower a) (Str.lower c)); constructor;
      [exact Hba|now inversion H].
Qed.

Lemma insert_by_lower_sorted a l :
  Sorted (fun x y => String.leb (Str.lower x) (Str.lower y) = true) l ->
  Sorted (fun x y => String.leb (Str.lower x) (Str.lower y) = true)
    (insert_by_lower a l).
Proof.
  induction 1 as [|b l S IH H]; cbn [insert_by_lower].
  - repeat constructor.
  - destruct (String.leb (Str.lower a) (Str.lower b)) eqn:E.
    + constructor; [now constructor|now constructor].
    + constructor; [exact IH|].
      apply insert_by_lower_hd; [|exact H].
      destruct (String.leb_total (Str.lower a) (Str.lower b)) as [T|T];
        [rewrite T in E; discriminate E|exact T].
Qed.

Lemma insert_by_lower_stable key a l :
  List.filter (fun x => String.eqb (Str.lower x) key) (insert_by_lower a l) =
  List.filter (fun x => String.eqb (Str.lower x) key) (a :: l).
Proof.
  induction l as [|b l IH]; cbn [insert_by_lower]; [reflexivity|].
  destruct (String.leb (Str.lower a) (Str.lower b)) eqn:E; [reflexivity|].
  cbn [List.filter] in *. rewrite IH.
  destruct (String.eqb_spec (Str.lower a) key) as [Ka|_]; [|reflexivity].
  destruct (String.eqb_spec (Str.lower b) key) as [Kb|_]; [|reflexivity].
  rewrite Ka, Kb, leb_refl in E. discriminate E.
Qed.

(** The entries of a directory listing are the names that [os.listdir]
    returned, each as often as it was returned, in non-decreasing order
    of their lower-case forms; names with the same lower-case form keep
    the order in which [os.listdir] returned them (the sort is stable). *)
Theorem listing_sorted_by_lower_case {L : Library} (f : filesystem)
    (dir displaypath : string) (names : list string) :
  Permutation (sort_by_lower names) names /\
  Sorted (fun x y => String.leb (Str.lower x) (Str.lower y) = true)
    (sort_by_lower names) /\
  (forall key,
     List.filter (fun x => String.eqb (Str.lower x) key) (sort_by_lower names) =
     List.filter (fun x => String.eqb (Str.lower x) key) names) /\
  exists top bottom,
    listing_lines f dir displaypath (sort_by_lower names) =
    (top ++ map (listing_entry f dir) (sort_by_lower names) ++ [bottom])%list.
Proof.
  split; [|split; [|split]].
  - unfold sort_by_lower. induction names as [|a l IH]; [reflexivity|].
    cbn [foldr]. rewrite insert_by_lower_perm. now constructor.
  - unfold sort_by_lower. induction names as [|a l IH]; [constructor|].
    cbn [foldr]. now apply insert_by_lower_sorted.
  - intros key. unfold sort_by_lower. induction names as [|a l IH]; [reflexivity|].
    cbn [foldr]. rewrite insert_by_lower_stable. cbn [List.filter].
    now rewrite IH.
  - unfold listing_lines. eexists _, _. reflexivity.
Qed.

(** ** The banner *)

Lemma startswith_slash r : Str.startswith "/" (String "/" r) = true.
Proof.
  unfold Str.startswith. cbn [String.prefix].
  destruct (ascii_dec "/" "/"); [apply prefix_empty|contradiction].
Qed.

Lemma initial_slashes_abs r :
  posixpath.initial_slashes (String "/" r) = 1%nat \/
  posixpath.initial_slashes (String "/" r) = 2%nat.
Proof.
  unfold posixpath.initial_slashes. rewrite startswith_slash.
  destruct (_ && _); [now right|now left].
Qed.

Lemma normpath_isabs r : posixpath.isabs (posixpath.normpath (String "/" r)) = true.
Proof.
  unfold posixpath.normpath.
  change (String.eqb (String "/" r) EmptyString) with false. cbv iota zeta.
  destruct (initial_slashes_abs r) as [-> | ->]; cbv iota;
    rewrite append_cons; cbn [Str.truthy]; apply startswith_slash.
Qed.

Lemma abspath_isabs cwd root :
  posixpath.isabs cwd = true -> posixpath.isabs (posixpath.abspath cwd root) = true.
Proof.
  intros A. unfold posixpath.abspath.
  destruct (posixpath.isabs root) eqn:R.
  - destruct (startswith_slash_cons root R) as (r & ->). apply normpath_isabs.
  - destruct (startswith_slash_cons cwd A) as (r & ->).
    unfold posixpath.join. unfold posixpath.isabs in R. rewrite R.
    destruct (_ || _); rewrite append_cons; apply normpath_isabs.
Qed.

Lemma initial_slashes_trailing r :
  Str.endswith "/" (String "/" r) = false ->
  posixpath.initial_slashes (String "/" r +:+ "/") =
  posixpath.initial_slashes (String "/" r).
Proof.
  intros E. destruct r as [|c2 [|c3 r3]].
  - discriminate E.
  - destruct (Ascii.eqb_spec c2 "/") as [->|N]; [discriminate E|].
    rewrite !append_cons.
    unfold posixpath.initial_slashes, Str.startswith. cbn [String.prefix].
    destruct (ascii_dec "/" "/"); [|contradiction].
    destruct (ascii_dec "/" c2) as [<-|_]; [contradiction|reflexivity].
  - rewrite !append_cons. apply initial_slashes_cons3.
Qed.

(** The path that the banner shows for an empty [ROOT_DIR]. *)
Lemma abspath_empty_root cwd :
  posixpath.isabs cwd = true ->
  posixpath.abspath cwd EmptyString = posixpath.normpath cwd.
Proof.
  intros A. unfold posixpath.abspath.
  change (posixpath.isabs EmptyString) with false. cbv iota.
  destruct (startswith_slash_cons cwd A) as (r & ->).
  unfold posixpath.join.
  change (Str.startswith "/" EmptyString) with false. cbv iota.
  cbn [Str.truthy negb orb].
  destruct (Str.endswith "/" (String "/" r)) eqn:E.
  - now rewrite append_empty_r.
  - change ("/" +:+ EmptyString) with "/".
    unfold posixpath.normpath.
    rewrite (initial_slashes_trailing r E).
    change (String "/" r +:+ "/") with (String "/" r +:+ String "/" EmptyString).
    rewrite split_app_sep.
    change (Str.split posixpath.sep EmptyString) with [EmptyString].
    rewrite normpath_steps_empty.
    rewrite append_cons. reflexivity.
Qed.

(** The banner names an absolute path whatever [ROOT_DIR] holds, when
    the working directory is absolute, together with the port that was
    bound; for an empty [ROOT_DIR] the path is the working directory
    (normalised), as it is for the default [./]. *)
Theorem banner_names_absolute_path (p : process) (root : string) (port : Z) :
  posixpath.isabs (getcwd p) = true ->
  exists shown,
    banner p root port =
      "Serving " +:+ shown +:+ " on http://127.0.0.1:" +:+ Str.of_Z port +:+
      " with no-cache headers" /\
    posixpath.isabs shown = true /\
    (root = EmptyString \/ root = "./" -> shown = posixpath.normpath (getcwd p)).
Proof.
  intros A. exists (posixpath.abspath (getcwd p) root).
  split; [reflexivity|]. split; [now apply abspath_isabs|].
  intros [-> | ->]; [now apply abspath_empty_root|now apply abspath_default_root].
Qed.

Lemma banner_names_absolute_path_witness :
  banner (demo_process ∅ None) EmptyString 8000 =
  "Serving /srv/site on http://127.0.0.1:8000 with no-cache headers".
Proof.
  destruct (banner_names_absolute_path (demo_process ∅ None) EmptyString 8000)
    as (shown & B & _ & S); [reflexivity|].
  rewrite B, S by (left; reflexivity). reflexivity.
Defined.

(** ** The body is sent in chunks *)






(** ** The clock and the request version *)

Lemma answer_lines_date {L : Library} f t h a :
  answer_lines (at_time f t) h a =
  ([ status_line (answer_code a) (answer_message a);
     header_line "Server" version_string;
     header_line "Date" (date_time_string t) ]
   ++ map (fun field => header_line (fst field) (snd field))
        (drop 2 (answer_fields (at_time f 0) h a)))%list.
Proof. destruct a; reflexivity. Qed.

Lemma answer_writes_time {L : Library} f t h a :
  answer_writes (at_time f t) h a = answer_writes (at_time f 0) h a.
Proof. destruct a; reflexivity. Qed.

(** The time of the request shows in the [Date] field and nowhere else:
    for a parsed request and a file system, the status, the body and
    every line of the head but [Date] are the same at all times.
    ([Last-Modified] is the time of the file, not of the request.) *)
Theorem clock_shows_in_date_only {L : Library} (f : filesystem)
    (root method target version : string) (sent : list (string * string)) :
  exists code message rest body,
    forall t,
      let served := NoCacheHandler.handle_one_request (at_time f t)
                      (NoCacheHandler.init root method target version sent) in
      status_codes served = [code] /\
      response_body served = body /\
      response_head served =
        (if String.eqb version "HTTP/0.9" then None
         else Some (Str.join
                      ([ status_line code message;
                         header_line "Server" version_string;
                         header_line "Date" (date_time_string t) ]
                       ++ rest ++ NoCacheHandler.no_cache_lines ++ [CRLF]))).
Proof.
  set (h0 := NoCacheHandler.init root method target version sent).
  exists (answer_code (request_answer f h0)),
         (answer_message (request_answer f h0)),
         (map (fun field => header_line (fst field) (snd field))
            (drop 2 (answer_fields (at_time f 0) h0 (request_answer f h0)))),
         (Str.join (answer_writes (at_time f 0) h0 (request_answer f h0))).
  intros t served. subst served h0.
  rewrite fresh_status, fresh_body, fresh_head. cbn [fs at_time].
  rewrite answer_lines_date, answer_writes_time.
  rewrite <- !app_assoc. repeat split.
Qed.


(** ** A directory and its index file *)

(** A request for a directory, with the trailing slash, that holds an
    index file gets the bytes and the status that the request for the
    index file itself gets: the directory URL and the URL of its
    [index.html] (or [index.htm]) cannot be told apart. *)
Theorem directory_serves_its_index {L : Library} (w : world)
    (root method target other version index : string)
    (sent : list (string * string)) :
  isdir (fs w) (translate_path root target) = true ->
  Str.endswith "/" (urlsplit_path target) = true ->
  find_index (fs w) (translate_path root target) = Some index ->
  translate_path root other = index ->
  isdir (fs w) index = false ->
  let first := NoCacheHandler.handle_one_request w
                 (NoCacheHandler.init root method target version sent) in
  let second := NoCacheHandler.handle_one_request w
                  (NoCacheHandler.init root method other version sent) in
  wfile first = wfile second /\
  status_codes first = status_codes second.
Proof.
  intros D S F T Di first second. subst first second.
  rewrite !fresh_status. rewrite !fresh_answer, !wfile_respond_init.
  set (h1 := NoCacheHandler.init root method target version sent).
  set (h2 := NoCacheHandler.init root method other version sent).
  assert (request_answer (fs w) h1 = request_answer (fs w) h2 /\
          pathless (request_answer (fs w) h1)) as [A Pl].
  { unfold request_answer.
    change (command h1) with method. change (command h2) with method.
    destruct (_ || _); [|split; [reflexivity|exact I]].
    unfold head_answer.
    change (directory h1) with root. change (directory h2) with root.
    change (path h1) with target. change (path h2) with other.
    cbv zeta. rewrite D, S, F, T, Di. cbn [negb].
    split; [|apply file_answer_pathless].
    apply file_answer_agree. intros data. reflexivity. }
  rewrite <- A.
  rewrite (answer_lines_pathless h1 h2 w _ Pl).
  rewrite (answer_writes_pathless h1 h2 eq_refl w _ Pl).
  split; reflexivity.
Qed.

Lemma directory_serves_its_index_witness :
  wfile (NoCacheHandler.handle_one_request (L := Demo.library)
           (at_time small_tree 1000)
           (NoCacheHandler.init "./" "GET" "/blog/" "HTTP/1.1" [])) =
  wfile (NoCacheHandler.handle_one_request (L := Demo.library)
           (at_time small_tree 1000)
           (NoCacheHandler.init "./" "GET" "/blog/index.html" "HTTP/1.1" [])) /\
  status_codes
    (NoCacheHandler.handle_one_request (L := Demo.library)
       (at_time small_tree 1000)
       (NoCacheHandler.init "./" "GET" "/blog/" "HTTP/1.1" [])) = [200].
Proof.
  pose proof (directory_serves_its_index (L := Demo.library)
                (at_time small_tree 1000)
                "./" "GET" "/blog/" "/blog/index.html" "HTTP/1.1"
                "./blog/index.html" []) as T.
  cbv zeta in T.
  destruct T as (W & _);
    [reflexivity|reflexivity|reflexivity|reflexivity|reflexivity|].
  split; [exact W|]. vm_compute. reflexivity.
Defined.
